(** * Sublimall: the archiver (sublimall/archiver.py)

    A shallow embedding of the [Archiver] class, which packs and unpacks the
    editor's "Packages" and "Installed Packages" directories by running an
    external 7-zip compatible binary, and keeps backup copies of the two
    directories.

    Conventions of the embedding.
    - A Python [str] is a [string], each [ascii] a code point below 256;
      [None]-able values are [option]s.
    - The collaborators the class calls (the [sublime] API, [os.path],
      [blacklist], [utils], [shutil], [subprocess]) are interfaces: each is a
      class in a module of the same name, so that the code reads
      [sublime.packages_path], [blacklist.packages], [os_path.join] as the
      source does.  [posixpath] gives the POSIX implementation of [os.path].
    - Effects (the file system, the calls into [shutil] and [subprocess], the
      generation of temporary names, raised exceptions) are threaded through
      a state-and-exception monad [M] over [World].
    - The file system is the tree of the root directory.  What
      [os.path.exists], [shutil.rmtree], [shutil.copytree] and a child
      process do to it belongs to the system, like the other collaborators;
      [posixfs] gives these calls for a POSIX system without links.
    - Calls to the logger only write log lines; they are left out. *)

From Stdlib Require Import String Ascii List ZArith Lia Bool.
From stdpp Require Import gmap strings.

Local Open Scope Z_scope.

(** ** Python string primitives used by the code and by [posixpath] *)

Module pystr.

(** [s.startswith(c)] and [s.endswith(c)] for a one-character [c]. *)
Definition startswith (c : ascii) (s : string) : bool :=
  match s with
  | String a _ => Ascii.eqb a c
  | EmptyString => false
  end.

Fixpoint endswith (c : ascii) (s : string) : bool :=
  match s with
  | EmptyString => false
  | String a EmptyString => Ascii.eqb a c
  | String _ r => endswith c r
  end.

(** [s.rfind(c)]: the index of the last [c] in [s], or [-1]. *)
Fixpoint rfind (c : ascii) (s : string) : Z :=
  match s with
  | EmptyString => -1
  | String a r =>
      let i := rfind c r in
      if 0 <=? i then i + 1 else if Ascii.eqb a c then 0 else -1
  end.

(** The slices [s[:i]] and [s[i:]] for [0 <= i]. *)
Fixpoint slice_to (i : nat) (s : string) : string :=
  match i, s with
  | S i', String a r => String a (slice_to i' r)
  | _, _ => EmptyString
  end.

Fixpoint slice_from (i : nat) (s : string) : string :=
  match i, s with
  | S i', String _ r => slice_from i' r
  | _, _ => s
  end.

(** [c * n]. *)
Fixpoint repeat (c : ascii) (n : nat) : string :=
  match n with
  | O => EmptyString
  | S n' => String c (repeat c n')
  end.

(** [s.rstrip(c)]. *)
Fixpoint rstrip (c : ascii) (s : string) : string :=
  match s with
  | EmptyString => EmptyString
  | String a r =>
      match rstrip c r with
      | EmptyString => if Ascii.eqb a c then EmptyString else String a EmptyString
      | r' => String a r'
      end
  end.

(** [s.split(c)]. *)
Fixpoint split (c : ascii) (s : string) : list string :=
  match s with
  | EmptyString => [EmptyString]
  | String a r =>
      if Ascii.eqb a c then EmptyString :: split c r
      else match split c r with
           | h :: t => String a h :: t
           | [] => [String a EmptyString]
           end
  end.

(** [c.join(l)]. *)
Definition join (c : ascii) (l : list string) : string :=
  String.concat (String c EmptyString) l.

(** [c in s] for a one-character [c]. *)
Fixpoint contains (c : ascii) (s : string) : bool :=
  match s with
  | EmptyString => false
  | String a r => (Ascii.eqb a c || contains c r)%bool
  end.

(** [s.lower()].  An [ascii] stands for a code point below 256; on these
    [str.lower()] works character by character and moves the letters
    [A]..[Z] and the accented capitals 192..222 (but not the sign 215) up
    by 32. *)
Definition lower_char (a : ascii) : ascii :=
  let n := N_of_ascii a in
  if ((65 <=? n) && (n <=? 90)
      || (192 <=? n) && (n <=? 222) && negb (n =? 215))%N
  then ascii_of_N (n + 32) else a.

Fixpoint lower (s : string) : string :=
  match s with
  | EmptyString => EmptyString
  | String a r => String (lower_char a) (lower r)
  end.

End pystr.

(** ** [posixpath]: the POSIX flavour of [os.path] *)

Module posixpath.

Definition sep : ascii := "/"%char.
Definition pardir : string := "..".
Definition curdir : string := ".".

Definition isabs (s : string) : bool := pystr.startswith sep s.

(** [join(a, b)]: an absolute [b] replaces [a]; otherwise [b] is appended,
    after a separator unless [a] is empty or already ends with one. *)
Definition join (a b : string) : string :=
  if pystr.startswith sep b then b
  else if (String.eqb a "" || pystr.endswith sep a)%bool then a +:+ b
  else a +:+ String sep b.

(** [split(p)]: everything up to the last slash, and what follows it; the
    head loses its trailing slashes unless it consists of slashes only. *)
Definition split (p : string) : string * string :=
  let i := Z.to_nat (pystr.rfind sep p + 1) in
  let head := pystr.slice_to i p in
  let tail := pystr.slice_from i p in
  let head :=
    if (negb (String.eqb head "")
        && negb (String.eqb head (pystr.repeat sep (String.length head))))%bool
    then pystr.rstrip sep head else head in
  (head, tail).

Definition basename (p : string) : string :=
  let i := Z.to_nat (pystr.rfind sep p + 1) in
  pystr.slice_from i p.

(** One round of the loop of [normpath] over the components. *)
Definition normpath_step (initial_slashes : nat) (new_comps : list string)
    (comp : string) : list string :=
  if (String.eqb comp "" || String.eqb comp curdir)%bool then new_comps
  else if (negb (String.eqb comp pardir)
           || (Nat.eqb initial_slashes 0 && Nat.eqb (length new_comps) 0)
           || (negb (Nat.eqb (length new_comps) 0)
               && String.eqb (List.last new_comps "") pardir))%bool
  then new_comps ++ [comp]
  else List.removelast new_comps.

Definition normpath (path : string) : string :=
  if String.eqb path "" then curdir
  else
    let initial_slashes :=
      if pystr.startswith sep path then
        if (String.prefix "//" path && negb (String.prefix "///" path))%bool
        then 2%nat else 1%nat
      else 0%nat in
    let comps := pystr.split sep path in
    let comps := fold_left (normpath_step initial_slashes) comps [] in
    let path := pystr.join sep comps in
    let path := pystr.repeat sep initial_slashes +:+ path in
    if String.eqb path "" then curdir else path.

(** [abspath(path)] in a process whose working directory is [cwd]. *)
Definition abspath (cwd : string) (path : string) : string :=
  normpath (if isabs path then path else join cwd path).

(** A component of a normalized path: not empty, neither [.] nor [..],
    and without a separator. *)
Definition plain (c : string) : Prop :=
  c <> "" /\ c <> curdir /\ c <> pardir /\ pystr.contains sep c = false.

End posixpath.

(** ** The collaborators of the archiver *)

(** [os.path], as far as the archiver uses it.  [exists] reads the file
    system and is a primitive of the monad below.  The documentation of
    [os.path.basename] defines it as the second half of [os.path.split]. *)
Module os_path.
Class t := {
  join : string -> string -> string;
  split : string -> string * string;
  basename : string -> string;
  abspath : string -> string;
  pardir : string;
  basename_split : forall p, basename p = snd (split p)
}.
End os_path.

(** The editor's plugin API: the two package directories, and settings
    files read as dictionaries (only lists of names are read from them). *)
Module sublime.
Class t := {
  packages_path : string;
  installed_packages_path : string;
  load_settings : string -> gmap string (list string)
}.
End sublime.

(** [sublimall/blacklist.py]: two constant lists of names, parameters of
    the development. *)
Module blacklist.
Class t := {
  packages : list string;
  installed_packages : list string
}.
End blacklist.

(** [sublimall/utils.py]: [get_7za_bin()] is the path of the bundled
    archiver or [None]; [generate_temp_filename()] yields a new name at each
    call, here the next one of the sequence [temp_filename].  Both are
    parameters of the development. *)
Module utils.
Class t := {
  get_7za_bin : option string;
  temp_filename : nat -> string
}.
End utils.

#[local] Set Warnings "-register-all".

(** A file, or a directory with its entries. *)
Inductive tree : Type :=
  | File (data : string)
  | Dir (entries : list (string * tree)).

(** [subprocess.STARTUPINFO]. *)
Record STARTUPINFO := { dwFlags : Z }.
Definition STARTF_USESHOWWINDOW : Z := 1.

(** The exceptions that the code and the calls it makes raise. *)
Inductive exn : Type :=
  | AssertionError
  | Exception (msg : string)
  | UnboundLocalError (var : string)
  | KeyError (key : string)
  | IndexError
  | FileNotFoundError (path : string)
  | NotADirectoryError (path : string)
  | FileExistsError (path : string).

(** The operating system: its name and, on the tree of the root directory,
    the calls that the archiver makes: [os.path.exists(path)];
    [shutil.rmtree(path, ignore_errors=True)], which raises nothing
    whatever it could remove; [shutil.copytree(src, dst, symlinks=True)],
    which may raise, and may have changed the tree by then; and a child
    process, which ends with an exit code. *)
Module os.
Class t := {
  name : string;
  path_exists : tree -> string -> bool;
  rmtree : string -> tree -> tree;
  copytree : string -> string -> tree -> option exn * tree;
  run_process : list string -> option STARTUPINFO -> tree -> Z * tree
}.
End os.

(** ** The world and the monad *)

(** A call into [shutil] or [subprocess]. *)
Inductive event : Type :=
  | ev_rmtree (path : string)
  | ev_copytree (src dst : string)
  | ev_Popen (args : list string) (startupinfo : option STARTUPINFO).

Record World := {
  fs : tree;
  trace : list event;
  temp_seq : nat
}.

Inductive outcome (A : Type) : Type :=
  | Return (a : A)
  | Raise (e : exn).
Arguments Return {A} a.
Arguments Raise {A} e.

Definition M (A : Type) : Type := World -> outcome A * World.

Global Instance M_ret : MRet M := fun A a w => (Return a, w).

Global Instance M_bind : MBind M := fun A B f m w =>
  match m w with
  | (Return a, w') => f a w'
  | (Raise e, w') => (Raise e, w')
  end.

Definition raise {A} (e : exn) : M A := fun w => (Raise e, w).

Definition assert (b : bool) : M unit :=
  if b then mret tt else raise AssertionError.

Definition emit (e : event) : M unit := fun w =>
  (Return tt, {| fs := fs w; trace := trace w ++ [e]; temp_seq := temp_seq w |}).

Definition set_fs (f : tree) : M unit := fun w =>
  (Return tt, {| fs := f; trace := trace w; temp_seq := temp_seq w |}).

Definition get_fs : M tree := fun w => (Return (fs w), w).

Section Primitives.
Context {system : os.t} {tools : utils.t}.

(** [os.path.exists(path)]. *)
Definition os_path_exists (path : string) : M bool :=
  f ← get_fs; mret (os.path_exists f path).

(** [shutil.rmtree(path, ignore_errors=True)]: nothing is raised. *)
Definition shutil_rmtree_ignore_errors (path : string) : M unit :=
  emit (ev_rmtree path);;
  f ← get_fs;
  set_fs (os.rmtree path f).

(** [shutil.copytree(src, dst, symlinks=True)]. *)
Definition shutil_copytree (src dst : string) : M unit :=
  emit (ev_copytree src dst);;
  f ← get_fs;
  let '(error, f') := os.copytree src dst f in
  set_fs f';;
  match error with
  | Some e => raise e
  | None => mret tt
  end.

(** [subprocess.Popen(args, startupinfo=startupinfo).wait()]. *)
Definition subprocess_Popen_wait (args : list string)
    (startupinfo : option STARTUPINFO) : M Z :=
  emit (ev_Popen args startupinfo);;
  f ← get_fs;
  let '(exitcode, f') := os.run_process args startupinfo f in
  set_fs f';;
  mret exitcode.

(** [utils.generate_temp_filename()]. *)
Definition generate_temp_filename : M string := fun w =>
  (Return (utils.temp_filename (temp_seq w)),
   {| fs := fs w; trace := trace w; temp_seq := S (temp_seq w) |}).

End Primitives.

(** ** Python dictionaries from [str] to [str]

    A dictionary is the list of its items in insertion order, the order in
    which Python (3.7 and later) iterates over it. *)

Module pydict.

(** [d[k] = v]: a key already present keeps its place and takes the new
    value; a new key goes last. *)
Fixpoint setitem (k v : string) (d : list (string * string)) :
    list (string * string) :=
  match d with
  | [] => [(k, v)]
  | (k', v') :: r =>
      if decide (k = k') then (k', v) :: r else (k', v') :: setitem k v r
  end.

(** The display [{k1: v1, k2: v2, ...}]. *)
Definition display (kvs : list (string * string)) : list (string * string) :=
  fold_left (fun d kv => setitem (fst kv) (snd kv) d) kvs [].

Definition keys (d : list (string * string)) : list string := map fst d.
Definition items (d : list (string * string)) : list (string * string) := d.

End pydict.

(** ** Keyword arguments

    The keys that [pack_packages] and [_run_executable] look up in
    [**kwargs]; a key that was not passed is [None]. *)
Module kwargs.
Record t := {
  excluded_dirs : option (list string);
  output_filename : option string;
  input_file : option string;
  output_dir : option string
}.
Definition empty : t :=
  {| excluded_dirs := None; output_filename := None;
     input_file := None; output_dir := None |}.
Definition set_excluded_dirs (v : list string) (kw : t) : t :=
  {| excluded_dirs := Some v; output_filename := output_filename kw;
     input_file := input_file kw; output_dir := output_dir kw |}.
Definition set_output_filename (v : string) (kw : t) : t :=
  {| excluded_dirs := excluded_dirs kw; output_filename := Some v;
     input_file := input_file kw; output_dir := output_dir kw |}.
End kwargs.

(** ** The archiver *)

(** An [Archiver] object: the attributes that [__init__] stores. *)
Record Archiver := {
  directory_list : list (string * string);
  packages_bak_path : string;
  installed_packages_bak_path : string
}.

(** [for x in l: body(x)]. *)
Fixpoint for_each {A : Type} (l : list A) (body : A -> M unit) : M unit :=
  match l with
  | [] => mret tt
  | x :: r => body x;; for_each r body
  end.

(** [d[key]] for a key of [**kwargs]. *)
Definition getitem {A : Type} (v : option A) (key : string) : M A :=
  match v with
  | Some a => mret a
  | None => raise (KeyError key)
  end.

Section Archiver.
Context {paths : os_path.t} {editor : sublime.t} {black : blacklist.t}
  {tools : utils.t} {system : os.t}.

(** Stores the packages paths. *)
Definition __init__ : Archiver :=
  {| directory_list :=
       pydict.display
         [(sublime.packages_path, "");
          (sublime.installed_packages_path, ".sublime-package")];
     packages_bak_path := sublime.packages_path +:+ ".bak";
     installed_packages_bak_path := sublime.installed_packages_path +:+ ".bak" |}.

(** Safely removes a directory. *)
Definition _safe_rmtree (self : Archiver) (directory : string) : M unit :=
  found ← os_path_exists directory;
  if found : bool then shutil_rmtree_ignore_errors directory else mret tt.

Definition _safe_copy (self : Archiver) (source destination : string) : M unit :=
  found ← os_path_exists destination;
  if negb found : bool then shutil_copytree source destination else mret tt.

(** Whether the current system is Windows. *)
Definition _is_os_nt (self : Archiver) : bool := String.eqb os.name "nt".

(** The path of the 7za executable. *)
Definition _get_7za_executable (self : Archiver) : M string :=
  let zip_bin := utils.get_7za_bin in
  match zip_bin with
  | None => raise (Exception "Couldn't find 7za binary")
  | Some zip_bin => mret zip_bin
  end.

(** The default output directory: the code assumes that Packages and
    Installed Packages are in the same directory, and takes the parent of
    the first key of the dictionary. *)
Definition _get_output_dir (self : Archiver) : M string :=
  match pydict.keys (directory_list self) with
  | key :: _ => mret (os_path.abspath (os_path.join key os_path.pardir))
  | [] => raise IndexError
  end.

(** Runs the 7z executable with arguments.  The local variable
    [command_args] is [None] as long as it is not assigned. *)
Definition _run_executable (self : Archiver) (command : string)
    (password : option string) (kw : kwargs.t) : M Z :=
  assert (bool_decide (command ∈ ["a"; "x"]));;
  command_args ←
    (if String.eqb command "a" then
       assert (bool_decide (is_Some (kwargs.output_filename kw)));;
       exe ← _get_7za_executable self;
       let command_args := [exe; command; "-tzip"; "-y"] in
       let command_args :=
         match password with
         | Some password => command_args ++ ["-p" +:+ password]
         | None => command_args
         end in
       let command_args :=
         match kwargs.excluded_dirs kw with
         | Some excluded_dirs =>
             command_args
             ++ map (fun excluded_dir => "-x!" +:+ excluded_dir +:+ "*") excluded_dirs
         | None => command_args
         end in
       output_filename ← getitem (kwargs.output_filename kw) "output_filename";
       let command_args := command_args ++ [output_filename] in
       mret (Some (command_args ++ pydict.keys (directory_list self)))
     else if String.eqb command "x" then
       assert (bool_decide (is_Some (kwargs.input_file kw))
               && bool_decide (is_Some (kwargs.output_dir kw)));;
       exe ← _get_7za_executable self;
       output_dir ← getitem (kwargs.output_dir kw) "output_dir";
       let command_args := [exe; command; "-tzip"; "-y"; "-o" +:+ output_dir] in
       let command_args :=
         match password with
         | Some password => command_args ++ ["-p" +:+ password]
         | None => command_args
         end in
       input_file ← getitem (kwargs.input_file kw) "input_file";
       mret (Some (command_args ++ [input_file]))
     else mret None);
  let startupinfo :=
    if _is_os_nt self
    then Some {| dwFlags := Z.lor 0 STARTF_USESHOWWINDOW |}
    else None in
  match command_args with
  | None => raise (UnboundLocalError "command_args")
  | Some command_args =>
      exitcode ← subprocess_Popen_wait command_args startupinfo;
      mret exitcode
  end.

(** The files and directories that Package Control handles. *)
Definition _excludes_from_package_control (self : Archiver) : list string :=
  let pc_settings := sublime.load_settings "Package Control.sublime-settings" in
  let installed_packages := default [] (pc_settings !! "installed_packages") in
  flat_map
    (fun package_name =>
       map (fun '(directory, suffix) =>
              os_path.join (snd (os_path.split directory)) package_name +:+ suffix)
           (pydict.items (directory_list self)))
    (filter (fun package_name => pystr.lower package_name ≠ "package control")
            installed_packages).

(** Removes the backups of the packages directories. *)
Definition remove_backup_dirs (self : Archiver) : M unit :=
  for_each [packages_bak_path self; installed_packages_bak_path self]
    (fun directory => _safe_rmtree self directory).

(** Copies the packages directories to their backups. *)
Definition move_packages_to_backup_dirs (self : Archiver) : M unit :=
  remove_backup_dirs self;;
  _safe_copy self sublime.installed_packages_path (installed_packages_bak_path self);;
  _safe_copy self sublime.packages_path (packages_bak_path self).

(** Compresses Packages and Installed Packages.  The appends of the source
    extend the caller's list in place; [excluded_dirs] below is the value of
    that list, which is what [_run_executable] reads. *)
Definition pack_packages (self : Archiver) (password : option string)
    (backup exclude_from_package_control : bool) (kw : kwargs.t) : M string :=
  let excluded_dirs := default [] (kwargs.excluded_dirs kw) in
  let packages_root_path := os_path.basename sublime.packages_path in
  let installed_packages_root_path :=
    os_path.basename sublime.installed_packages_path in
  let excluded_dirs :=
    fold_left
      (fun excluded_dirs package =>
         excluded_dirs ++ [os_path.join packages_root_path package])
      blacklist.packages excluded_dirs in
  let excluded_dirs :=
    fold_left
      (fun excluded_dirs package =>
         excluded_dirs ++ [os_path.join installed_packages_root_path package])
      blacklist.installed_packages excluded_dirs in
  let excluded_dirs :=
    if (exclude_from_package_control && negb backup)%bool
    then excluded_dirs ++ _excludes_from_package_control self
    else excluded_dirs in
  let kw := kwargs.set_excluded_dirs excluded_dirs kw in
  kw ← (match kwargs.output_filename kw with
        | None =>
            name ← generate_temp_filename;
            mret (kwargs.set_output_filename name kw)
        | Some _ => mret kw
        end);
  _run_executable self "a" password kw;;
  getitem (kwargs.output_filename kw) "output_filename".

(** Uncompresses Packages and Installed Packages. *)
Definition unpack_packages (self : Archiver) (input_file : string)
    (output_dir password : option string) : M unit :=
  output_dir ← (match output_dir with
                | None => _get_output_dir self
                | Some output_dir => mret output_dir
                end);
  _run_executable self "x" password
    {| kwargs.excluded_dirs := None; kwargs.output_filename := None;
       kwargs.input_file := Some input_file;
       kwargs.output_dir := Some output_dir |};;
  mret tt.

End Archiver.

(** ** A POSIX file system without links

    The tree of the root directory, with the system calls as CPython's [os]
    and [shutil] make them on it.  A path names the place that its
    normalized absolute form spells out: there are no symbolic links, and
    no permissions, so that a removal is complete and a copy fails only for
    what is or is not in the tree.  A copy into a directory that lies
    deeper than one level inside its own source is not covered. *)

Module posixfs.

(** The entry [name] of a directory: the first one of that name. *)
Fixpoint entry (name : string) (entries : list (string * tree)) : option tree :=
  match entries with
  | [] => None
  | (n, t) :: rest => if String.eqb n name then Some t else entry name rest
  end.

(** The directory without [name]. *)
Fixpoint without (name : string) (entries : list (string * tree)) :
    list (string * tree) :=
  match entries with
  | [] => []
  | (n, t) :: rest =>
      if String.eqb n name then without name rest
      else (n, t) :: without name rest
  end.

(** The directory with [t] at [name]: in the place of the entry of that
    name, or else as a new, last entry. *)
Fixpoint replace (name : string) (t : tree) (entries : list (string * tree)) :
    list (string * tree) :=
  match entries with
  | [] => [(name, t)]
  | (n, c) :: rest =>
      if String.eqb n name then (n, t) :: rest
      else (n, c) :: replace name t rest
  end.

Definition set_entry (name : string) (o : option tree)
    (entries : list (string * tree)) : list (string * tree) :=
  match o with
  | Some t => replace name t entries
  | None => without name entries
  end.

(** What following the names [loc] from [t] leads to: a file or directory,
    a name that is not there ([ENOENT]), or a file where a directory is
    needed ([ENOTDIR]). *)
Inductive found : Type :=
  | Found (t : tree)
  | Missing
  | Blocked.

Fixpoint resolve (loc : list string) (t : tree) : found :=
  match loc with
  | [] => Found t
  | name :: rest =>
      match t with
      | File _ => Blocked
      | Dir entries =>
          match entry name entries with
          | Some child => resolve rest child
          | None => Missing
          end
      end
  end.

(** The tree with [o] at the place [loc] ([None]: with nothing there),
    when the directory that holds that place exists; the root directory
    itself can only be emptied. *)
Fixpoint update (loc : list string) (o : option tree) (t : tree) : tree :=
  match loc with
  | [] => default (Dir []) o
  | name :: rest =>
      match t with
      | File _ => t
      | Dir entries =>
          match rest with
          | [] => Dir (set_entry name o entries)
          | _ :: _ =>
              match entry name entries with
              | Some child => Dir (replace name (update rest o child) entries)
              | None => t
              end
          end
      end
  end.

(** The place that [path] names in a process whose working directory is
    [cwd]. *)
Definition locate (cwd path : string) : list string :=
  List.filter (fun c => negb (String.eqb c ""))
    (pystr.split posixpath.sep (posixpath.abspath cwd path)).

(** [os.path.exists(path)]. *)
Definition path_exists (cwd : string) (f : tree) (path : string) : bool :=
  match resolve (locate cwd path) f with
  | Found _ => true
  | _ => false
  end.

(** [shutil.rmtree(path, ignore_errors=True)]: a directory is removed with
    all that it holds; on anything else the call fails, which is ignored. *)
Definition rmtree (cwd path : string) (f : tree) : tree :=
  match resolve (locate cwd path) f with
  | Found (Dir _) => update (locate cwd path) None f
  | _ => f
  end.

(** [os.mkdir(name)]. *)
Definition mkdir (cwd name : string) (f : tree) : option exn * tree :=
  match resolve (locate cwd name) f with
  | Found _ => (Some (FileExistsError name), f)
  | Blocked => (Some (NotADirectoryError name), f)
  | Missing =>
      match resolve (removelast (locate cwd name)) f with
      | Found (Dir _) => (None, update (locate cwd name) (Some (Dir [])) f)
      | Missing => (Some (FileNotFoundError name), f)
      | _ => (Some (NotADirectoryError name), f)
      end
  end.

(** [os.makedirs(name)]: the missing directories above [name] are made
    first; [depth] bounds the recursion of the library function, which
    goes up one component of [name] at each call. *)
Fixpoint makedirs_upto (depth : nat) (cwd name : string) (f : tree) :
    option exn * tree :=
  let '(head, tail) := posixpath.split name in
  let '(head, tail) :=
    if String.eqb tail "" then posixpath.split head else (head, tail) in
  if (negb (String.eqb head "") && negb (String.eqb tail "")
      && negb (path_exists cwd f head))%bool
  then
    match depth with
    | O => mkdir cwd name f
    | S depth' =>
        match makedirs_upto depth' cwd head f with
        | (Some (FileExistsError _), f') | (None, f') =>
            if String.eqb tail posixpath.curdir then (None, f')
            else mkdir cwd name f'
        | (Some e, f') => (Some e, f')
        end
    end
  else mkdir cwd name f.

Definition makedirs (cwd name : string) (f : tree) : option exn * tree :=
  makedirs_upto (String.length name) cwd name f.

(** [shutil.copytree(src, dst, symlinks=True)]: the entries of [src] are
    listed, then [dst] is made, which must not exist, then the entries are
    copied into it. *)
Definition copytree (cwd src dst : string) (f : tree) : option exn * tree :=
  match resolve (locate cwd src) f with
  | Found (Dir entries) =>
      match makedirs cwd dst f with
      | (None, f') => (None, update (locate cwd dst) (Some (Dir entries)) f')
      | (Some e, f') => (Some e, f')
      end
  | Missing => (Some (FileNotFoundError src), f)
  | _ => (Some (NotADirectoryError src), f)
  end.

(** *** One directory *)

(** What [_safe_rmtree] leaves of the entries [E] of a directory when
    called on the name [x] in it. *)
Definition removed (x : string) (E : list (string * tree)) :
    list (string * tree) :=
  match entry x E with
  | Some (Dir _) => without x E
  | _ => E
  end.

(** What [_safe_copy] raises, and what it makes of the entries [E] of a
    directory, when called on the names [y] and [x] in it; [src] is the
    path of [y]. *)
Definition copied (src y x : string) (E : list (string * tree)) :
    option exn * list (string * tree) :=
  match entry x E with
  | Some _ => (None, E)
  | None =>
      match entry y E with
      | Some (Dir entries) => (None, replace x (Dir entries) E)
      | Some (File _) => (Some (NotADirectoryError src), E)
      | None => (Some (FileNotFoundError src), E)
      end
  end.

(** The system of a process that runs in the directory [cwd]. *)
Definition system (cwd : string)
    (run_process : list string -> option STARTUPINFO -> tree -> Z * tree) :
    os.t :=
  {| os.name := "posix";
     os.path_exists := path_exists cwd;
     os.rmtree := rmtree cwd;
     os.copytree := copytree cwd;
     os.run_process := run_process |}.

End posixfs.

(** The layout that the archiver assumes: Packages and Installed Packages
    are the entries [name] and [name'] of one directory [/dir], and none of
    the two is the other or its backup. *)
Definition side_by_side {editor : sublime.t} (dir : list string)
    (name name' : string) : Prop :=
  Forall posixpath.plain (dir ++ [name])
  /\ Forall posixpath.plain (dir ++ [name'])
  /\ sublime.packages_path = "/" +:+ pystr.join posixpath.sep (dir ++ [name])
  /\ sublime.installed_packages_path =
       "/" +:+ pystr.join posixpath.sep (dir ++ [name'])
  /\ name <> name'
  /\ name <> name' +:+ ".bak"
  /\ name' <> name +:+ ".bak".

(** ** A concrete host

    A POSIX installation, used to run the embedding on concrete inputs. *)

Module Host.

Lemma posix_basename_split (p : string) :
  posixpath.basename p = snd (posixpath.split p).
Proof. reflexivity. Qed.

Definition posix (cwd : string) : os_path.t :=
  {| os_path.join := posixpath.join;
     os_path.split := posixpath.split;
     os_path.basename := posixpath.basename;
     os_path.abspath := posixpath.abspath cwd;
     os_path.pardir := posixpath.pardir;
     os_path.basename_split := posix_basename_split |}.

Definition editor : sublime.t :=
  {| sublime.packages_path := "/home/u/.config/sublime-text-3/Packages";
     sublime.installed_packages_path :=
       "/home/u/.config/sublime-text-3/Installed Packages";
     sublime.load_settings := fun name =>
       if String.eqb name "Package Control.sublime-settings"
       then {[ "installed_packages" :=
                 ["Emmet"; "Package Control"; "SublimeLinter"] ]}
       else ∅ |}.

Definition black : blacklist.t :=
  {| blacklist.packages := ["User/Package Control.cache"; "User/Sublimall.log"];
     blacklist.installed_packages := ["Sublimall.sublime-package"] |}.

Definition tools : utils.t :=
  {| utils.get_7za_bin := Some "/opt/sublimall/7za";
     utils.temp_filename := fun n =>
       "/tmp/sublimall-" +:+ pystr.repeat "x"%char n +:+ ".zip" |}.

(** No archiver binary for this platform. *)
Definition no_tools : utils.t :=
  {| utils.get_7za_bin := None;
     utils.temp_filename := utils.temp_filename (t := tools) |}.

(** A system on which the archiver fails with exit code 2 without touching
    the file system. *)
Definition linux : os.t := posixfs.system "/home/u" (fun _ _ f => (2, f)).

(** A system on which nothing can be removed. *)
Definition locked : os.t :=
  {| os.name := "posix";
     os.path_exists := posixfs.path_exists "/home/u";
     os.rmtree := fun _ f => f;
     os.copytree := posixfs.copytree "/home/u";
     os.run_process := fun _ _ f => (0, f) |}.

(** The root directory that holds [entries] in
    [/home/u/.config/sublime-text-3]. *)
Definition installation (entries : list (string * tree)) : tree :=
  Dir [("home", Dir [("u", Dir [(".config",
         Dir [("sublime-text-3", Dir entries)])])])].

Definition Packages : tree :=
  Dir [("User", Dir [("Preferences.sublime-settings", File "{}")])].

Definition Installed_Packages : tree :=
  Dir [("Emmet.sublime-package", File "PK")].

Definition disk : tree :=
  installation
    [("Packages", Packages);
     ("Installed Packages", Installed_Packages);
     ("Packages.bak", Dir [("old", File "stale")])].

Definition world : World := {| fs := disk; trace := []; temp_seq := 0 |}.

(** The installation without its Installed Packages directory. *)
Definition without_installed : World :=
  {| fs := installation
             [("Packages", Packages);
              ("Packages.bak", Dir [("old", File "stale")])];
     trace := []; temp_seq := 0 |}.

(** The installation without its Packages directory. *)
Definition without_packages : World :=
  {| fs := installation
             [("Installed Packages", Installed_Packages);
              ("Packages.bak", Dir [("old", File "stale")])];
     trace := []; temp_seq := 0 |}.

(** The installation with an old backup of both directories. *)
Definition backed_up : World :=
  {| fs := installation
             [("Packages", Packages);
              ("Installed Packages", Installed_Packages);
              ("Packages.bak", Dir [("old", File "stale")]);
              ("Installed Packages.bak",
               Dir [("old.sublime-package", File "stale")])];
     trace := []; temp_seq := 0 |}.

(** An editor that keeps its installed packages inside the old backup of
    its packages, and one that keeps them inside its packages. *)
Definition below_backup : sublime.t :=
  {| sublime.packages_path := "/opt/st/Packages";
     sublime.installed_packages_path := "/opt/st/Packages.bak/Installed";
     sublime.load_settings := fun _ => ∅ |}.

Definition below_packages : sublime.t :=
  {| sublime.packages_path := "/opt/st/Packages";
     sublime.installed_packages_path := "/opt/st/Packages/Installed";
     sublime.load_settings := fun _ => ∅ |}.

End Host.

(** * Properties *)

(** ** The monad *)

Lemma bind_mret_l {A B : Type} (a : A) (f : A -> M B) (w : World) :
  (mret a ≫= f) w = f a w.
Proof. reflexivity. Qed.

Lemma bind_raise {A B : Type} (e : exn) (f : A -> M B) (w : World) :
  (raise e ≫= f) w = (Raise e, w).
Proof. reflexivity. Qed.

Lemma bind_mret_r {A : Type} (m : M A) (w : World) :
  (m ≫= mret) w = m w.
Proof.
  unfold mbind, M_bind. destruct (m w) as [[a|e] w']; reflexivity.
Qed.

Lemma bind_assoc {A B C : Type} (m : M A) (f : A -> M B) (g : B -> M C) (w : World) :
  ((m ≫= f) ≫= g) w = (m ≫= fun a => f a ≫= g) w.
Proof.
  unfold mbind, M_bind. destruct (m w) as [[a|e] w']; reflexivity.
Qed.

Lemma bind_Return {A B : Type} (m : M A) (f : A -> M B) (w w' : World) (a : A) :
  m w = (Return a, w') -> (m ≫= f) w = f a w'.
Proof. intros E. unfold mbind, M_bind. by rewrite E. Qed.

Lemma bind_Raise {A B : Type} (m : M A) (f : A -> M B) (w w' : World) (e : exn) :
  m w = (Raise e, w') -> (m ≫= f) w = (Raise e, w').
Proof. intros E. unfold mbind, M_bind. by rewrite E. Qed.

Lemma assert_true {B : Type} (b : bool) (k : M B) (w : World) :
  b = true -> (assert b;; k) w = k w.
Proof. intros ->. reflexivity. Qed.

Lemma assert_false {B : Type} (b : bool) (k : M B) (w : World) :
  b = false -> (assert b;; k) w = (Raise AssertionError, w).
Proof. intros ->. reflexivity. Qed.

Ltac run_monad :=
  unfold mbind, M_bind, mret, M_ret, raise, assert, emit, get_fs, set_fs, getitem;
  cbn [fst snd fs trace temp_seq].

(** ** Lists and strings *)

Lemma fold_left_append_map {A B : Type} (f : A -> B) (l : list A) (init : list B) :
  fold_left (fun acc x => acc ++ [f x]) l init = init ++ map f l.
Proof.
  revert init. induction l as [|x l IH]; intros init; simpl.
  - by rewrite app_nil_r.
  - rewrite IH. by rewrite <- app_assoc.
Qed.

Lemma append_cons (a : ascii) (s t : string) :
  String a s +:+ t = String a (s +:+ t).
Proof. reflexivity. Qed.

Lemma append_empty_r (s : string) : s +:+ "" = s.
Proof.
  induction s as [|a s IH]; [done|]. by rewrite append_cons, IH.
Qed.

Lemma length_append (s t : string) :
  String.length (s +:+ t) = (String.length s + String.length t)%nat.
Proof.
  induction s as [|a s IH]; [done|]. rewrite append_cons. simpl. by rewrite IH.
Qed.

Lemma append_inj_l (s1 s2 t : string) : s1 +:+ t = s2 +:+ t -> s1 = s2.
Proof.
  revert s2. induction s1 as [|a s1 IH]; intros [|b s2] E.
  - done.
  - apply (f_equal String.length) in E. rewrite !length_append in E.
    simpl in E. lia.
  - apply (f_equal String.length) in E. rewrite !length_append in E.
    simpl in E. lia.
  - rewrite !append_cons in E. injection E as -> E. f_equal. by apply IH.
Qed.

Lemma append_neq_self (s t : string) : t <> "" -> s <> s +:+ t.
Proof.
  intros Ht E. apply (f_equal String.length) in E. rewrite length_append in E.
  destruct t; [done | simpl in E; lia].
Qed.

(** ** POSIX paths *)

Module posixpath_facts.
Import posixpath.

Lemma split_no_sep (c : ascii) (s : string) :
  pystr.contains c s = false -> pystr.split c s = [s].
Proof.
  induction s as [|a s IH]; [done|]. cbn.
  intros [Ha Hs]%orb_false_iff. rewrite Ha, (IH Hs). reflexivity.
Qed.

Lemma split_append_sep (c : ascii) (s t : string) :
  pystr.contains c s = false ->
  pystr.split c (s +:+ String c t) = s :: pystr.split c t.
Proof.
  induction s as [|a s IH].
  - intros _. change ("" +:+ String c t) with (String c t). cbn.
    by rewrite Ascii.eqb_refl.
  - cbn. intros [Ha Hs]%orb_false_iff. rewrite append_cons. cbn.
    rewrite Ha, (IH Hs). reflexivity.
Qed.

Lemma join_cons (c : ascii) (x y : string) (l : list string) :
  pystr.join c (x :: y :: l) = x +:+ String c (pystr.join c (y :: l)).
Proof. reflexivity. Qed.

Lemma split_join (c : ascii) (l : list string) :
  l <> [] -> Forall (fun s => pystr.contains c s = false) l ->
  pystr.split c (pystr.join c l) = l.
Proof.
  induction l as [|x [|y l] IH]; intros Hne Hall.
  - done.
  - apply split_no_sep. by inversion Hall.
  - rewrite join_cons. inversion Hall as [|? ? Hx Hrest]; subst.
    rewrite (split_append_sep _ _ _ Hx). f_equal. by apply IH.
Qed.

Lemma append_assoc (s t u : string) : (s +:+ t) +:+ u = s +:+ t +:+ u.
Proof.
  induction s as [|a s IH]; [done|]. by rewrite !append_cons, IH.
Qed.

Lemma join_snoc (c : ascii) (l : list string) (x : string) :
  l <> [] -> pystr.join c (l ++ [x]) = pystr.join c l +:+ String c x.
Proof.
  induction l as [|y [|z l] IH]; intros Hne.
  - done.
  - reflexivity.
  - change ((y :: z :: l) ++ [x]) with (y :: z :: (l ++ [x])).
    rewrite !join_cons, append_assoc, append_cons. do 2 f_equal.
    by apply (IH ltac:(done)).
Qed.

Lemma endswith_append (c : ascii) (s t : string) :
  t <> "" -> pystr.endswith c (s +:+ t) = pystr.endswith c t.
Proof.
  intros Ht. induction s as [|a s IH]; [done|].
  rewrite append_cons. cbn. destruct (s +:+ t) eqn:E; [|exact IH].
  destruct s, t; try done; rewrite ?append_cons in E; discriminate.
Qed.

Lemma endswith_no_sep (c : ascii) (s : string) :
  pystr.contains c s = false -> pystr.endswith c s = false.
Proof.
  induction s as [|a s IH]; [done|]. cbn.
  intros [Ha Hs]%orb_false_iff. destruct s; [exact Ha | by apply IH].
Qed.

Lemma normpath_step_plain (n : nat) (acc : list string) (c : string) :
  plain c -> normpath_step n acc c = acc ++ [c].
Proof.
  intros (H0 & H1 & H2 & _). unfold normpath_step.
  apply String.eqb_neq in H0, H1, H2. by rewrite H0, H1, H2.
Qed.

Lemma normpath_fold_plain (n : nat) (comps acc : list string) :
  Forall plain comps ->
  fold_left (normpath_step n) comps acc = acc ++ comps.
Proof.
  revert acc. induction comps as [|c comps IH]; intros acc Hall; cbn.
  - by rewrite app_nil_r.
  - inversion Hall as [|? ? Hc Hrest]; subst.
    rewrite (normpath_step_plain _ _ _ Hc), (IH _ Hrest).
    by rewrite <- app_assoc.
Qed.

Lemma plain_head (c : string) :
  plain c -> exists a r, c = String a r /\ a <> sep.
Proof.
  intros (H0 & _ & _ & Hsep). destruct c as [|a r]; [done|].
  exists a, r. split; [done|]. cbn in Hsep.
  apply orb_false_iff in Hsep as [Ha _]. by apply Ascii.eqb_neq.
Qed.

Lemma join_head (c : string) (l : list string) (t : string) :
  plain c ->
  exists a r, pystr.join sep (c :: l) +:+ t = String a r /\ a <> sep.
Proof.
  intros (a & r & -> & Ha)%plain_head. destruct l as [|y l].
  - exists a, (r +:+ t). by rewrite <- append_cons.
  - rewrite join_cons, append_cons. by eexists _, _.
Qed.

(** [normpath] of an absolute path of plain components followed by [..]
    is the path without its last component. *)
Lemma normpath_parent (comps : list string) (name : string) :
  Forall plain (comps ++ [name]) ->
  normpath ("/" +:+ pystr.join sep (comps ++ [name]) +:+ "/..") =
    "/" +:+ pystr.join sep comps.
Proof.
  intros Hall.
  assert (Hne : comps ++ [name] <> []) by by destruct comps.
  assert (Hsplit :
    pystr.split sep ("/" +:+ pystr.join sep (comps ++ [name]) +:+ "/..") =
      "" :: (comps ++ [name]) ++ [".."]).
  { change ("/" +:+ pystr.join sep (comps ++ [name]) +:+ "/..")
      with (String sep (pystr.join sep (comps ++ [name]) +:+ String sep "..")).
    rewrite <- (join_snoc sep _ ".." Hne).
    destruct ((comps ++ [name]) ++ [".."]) as [|y l] eqn:E;
      [by destruct comps|].
    change (String sep (pystr.join sep (y :: l)))
      with (pystr.join sep ("" :: y :: l)).
    apply split_join; [done|]. rewrite <- E.
    constructor; [done|]. apply Forall_app. split.
    - eapply Forall_impl; [exact Hall|]. by intros c (_ & _ & _ & Hc).
    - by constructor. }
  assert (Hslashes :
    String.prefix "//" ("/" +:+ pystr.join sep (comps ++ [name]) +:+ "/..")
      = false).
  { destruct (comps ++ [name]) as [|c l] eqn:E; [done|].
    inversion Hall as [|? ? Hc _]; subst.
    destruct (join_head c l "/.." Hc) as (a & r & Hjoin & Ha).
    change ("/" +:+ pystr.join sep (c :: l) +:+ "/..")
      with (String sep (pystr.join sep (c :: l) +:+ "/..")).
    rewrite Hjoin.
    change (String.prefix "//" (String sep (String a r)))
      with (if ascii_dec "/" sep
            then if ascii_dec "/" a then String.prefix "" r else false
            else false).
    destruct (ascii_dec "/" a) as [e|]; [by destruct Ha|].
    by destruct (ascii_dec "/" sep). }
  unfold normpath. rewrite Hslashes, Hsplit.
  change (String.eqb ("/" +:+ _ +:+ "/..") "") with false.
  change (pystr.startswith sep ("/" +:+ _ +:+ "/..")) with true.
  cbn [andb negb fold_left]. 
  change (normpath_step 1 [] "") with (@nil string).
  rewrite fold_left_app, (normpath_fold_plain _ _ _ Hall). cbn [fold_left app].
  assert (Hlast : normpath_step 1 (comps ++ [name]) ".." = comps).
  { unfold normpath_step, curdir, pardir.
    change (String.eqb ".." "") with false.
    change (String.eqb ".." ".") with false.
    change (String.eqb ".." "..") with true.
    cbn [orb negb]. rewrite last_last.
    apply Forall_app in Hall as [_ Hname].
    inversion Hname as [|? ? Hn _]; subst.
    destruct Hn as (_ & _ & Hn & _). apply String.eqb_neq in Hn.
    unfold pardir in Hn. rewrite Hn.
    rewrite andb_false_r. cbn [andb]. by rewrite removelast_last. }
  rewrite Hlast. reflexivity.
Qed.

Lemma join_last (l : list string) (x : string) :
  exists pre, pystr.join sep (l ++ [x]) = pre +:+ x.
Proof.
  destruct l as [|y l].
  - by exists "".
  - exists (pystr.join sep (y :: l) +:+ "/").
    rewrite (join_snoc sep (y :: l) x ltac:(done)).
    by rewrite append_assoc.
Qed.

(** [join(p, '..')] for such a path [p]. *)
Lemma join_pardir (comps : list string) (name : string) :
  Forall plain (comps ++ [name]) ->
  join ("/" +:+ pystr.join sep (comps ++ [name])) pardir =
    "/" +:+ pystr.join sep (comps ++ [name]) +:+ "/..".
Proof.
  intros Hall. unfold join, pardir.
  change (pystr.startswith sep "..") with false.
  change (String.eqb ("/" +:+ _) "") with false.
  apply Forall_app in Hall as [_ Hname].
  inversion Hname as [|? ? (Hn & _ & _ & Hsep) _]; subst.
  destruct (join_last comps name) as [pre ->].
  rewrite <- (append_assoc "/" pre name).
  rewrite (endswith_append _ _ _ Hn), (endswith_no_sep _ _ Hsep).
  cbn [orb]. by rewrite !append_assoc.
Qed.

(** On POSIX, [abspath(join(p, '..'))] is [p] without its last
    component, whatever the working directory. *)
Lemma abspath_parent (cwd : string) (comps : list string) (name : string) :
  Forall plain (comps ++ [name]) ->
  abspath cwd (join ("/" +:+ pystr.join sep (comps ++ [name])) pardir) =
    "/" +:+ pystr.join sep comps.
Proof.
  intros Hall. rewrite (join_pardir _ _ Hall). unfold abspath.
  change (isabs ("/" +:+ _ +:+ "/..")) with true.
  by apply normpath_parent.
Qed.
End posixpath_facts.

(** ** The dictionary of the two directories *)

Section Facts.
Context {paths : os_path.t} {editor : sublime.t} {black : blacklist.t}
  {tools : utils.t} {system : os.t}.

(** With two different directories the dictionary holds both, in the order
    of the display. *)
Lemma directory_list_distinct :
  sublime.packages_path <> sublime.installed_packages_path ->
  directory_list __init__ =
    [(sublime.packages_path, "");
     (sublime.installed_packages_path, ".sublime-package")].
Proof.
  intros Hne. unfold __init__, pydict.display. cbn.
  destruct (decide _) as [e|]; [congruence | done].
Qed.

(** Were the two directories the same path, one key would be left, with the
    value written last. *)
Lemma directory_list_same :
  sublime.packages_path = sublime.installed_packages_path ->
  directory_list __init__ = [(sublime.packages_path, ".sublime-package")].
Proof.
  intros He. unfold __init__, pydict.display. cbn.
  destruct (decide _) as [e|]; [done | congruence].
Qed.

(** Either way the first key is the packages path. *)
Lemma directory_list_first_key :
  exists rest,
    pydict.keys (directory_list __init__) = sublime.packages_path :: rest.
Proof.
  destruct (decide (sublime.packages_path = sublime.installed_packages_path)) as [e|n].
  - rewrite (directory_list_same e). by exists [].
  - rewrite (directory_list_distinct n). by eexists.
Qed.

(** ** The calls into the system *)

Lemma Popen_wait_spec (args : list string) (si : option STARTUPINFO) (w : World) :
  subprocess_Popen_wait args si w =
    (Return (fst (os.run_process args si (fs w))),
     {| fs := snd (os.run_process args si (fs w));
        trace := trace w ++ [ev_Popen args si];
        temp_seq := temp_seq w |}).
Proof.
  unfold subprocess_Popen_wait. run_monad.
  destruct (os.run_process args si (fs w)) as [code f']. reflexivity.
Qed.

(** The unfolding of [_run_executable] for the command [a]. *)
Lemma run_executable_a (self : Archiver) (password : option string)
    (kw : kwargs.t) (exe out : string) (w : World) :
  utils.get_7za_bin = Some exe ->
  kwargs.output_filename kw = Some out ->
  _run_executable self "a" password kw w =
    subprocess_Popen_wait
      ([exe; "a"; "-tzip"; "-y"]
         ++ match password with Some p => ["-p" +:+ p] | None => [] end
         ++ map (fun d => "-x!" +:+ d +:+ "*") (default [] (kwargs.excluded_dirs kw))
         ++ [out] ++ pydict.keys (directory_list self))
      (if _is_os_nt self then Some {| dwFlags := 1 |} else None) w.
Proof.
  intros Hexe Hout. unfold _run_executable, _get_7za_executable.
  rewrite Hexe, Hout.
  rewrite assert_true by reflexivity.
  destruct password, (kwargs.excluded_dirs kw); cbn; run_monad;
    rewrite !Popen_wait_spec; rewrite <- ?app_assoc; reflexivity.
Qed.

(** The unfolding of [_run_executable] for the command [x]. *)
Lemma run_executable_x (self : Archiver) (password : option string)
    (kw : kwargs.t) (exe input dir : string) (w : World) :
  utils.get_7za_bin = Some exe ->
  kwargs.input_file kw = Some input ->
  kwargs.output_dir kw = Some dir ->
  _run_executable self "x" password kw w =
    subprocess_Popen_wait
      ([exe; "x"; "-tzip"; "-y"; "-o" +:+ dir]
         ++ match password with Some p => ["-p" +:+ p] | None => [] end
         ++ [input])
      (if _is_os_nt self then Some {| dwFlags := 1 |} else None) w.
Proof.
  intros Hexe Hin Hdir. unfold _run_executable, _get_7za_executable.
  rewrite Hexe, Hin, Hdir.
  rewrite assert_true by reflexivity.
  destruct password; cbn; run_monad; rewrite !Popen_wait_spec; reflexivity.
Qed.

(** [_run_executable] without the archiver binary. *)
Lemma run_executable_no_binary (self : Archiver) (command : string)
    (password : option string) (kw : kwargs.t) (w : World) :
  utils.get_7za_bin = None ->
  (command = "a" /\ is_Some (kwargs.output_filename kw))
  \/ (command = "x" /\ is_Some (kwargs.input_file kw)
      /\ is_Some (kwargs.output_dir kw)) ->
  _run_executable self command password kw w =
    (Raise (Exception "Couldn't find 7za binary"), w).
Proof.
  intros Hexe [[-> [out Hout]] | [-> [[input Hin] [dir Hdir]]]];
    unfold _run_executable, _get_7za_executable; rewrite Hexe.
  - rewrite Hout. rewrite assert_true by reflexivity. reflexivity.
  - rewrite Hin, Hdir. rewrite assert_true by reflexivity. reflexivity.
Qed.

End Facts.

(** ** Whole runs of the two entry points *)

Section Runs.
Context {paths : os_path.t} {editor : sublime.t} {black : blacklist.t}
  {tools : utils.t} {system : os.t}.

(** What [pack_packages] does when the archiver binary is found: it takes
    the next temporary name unless a name was passed, runs the archiver
    once, and returns the name. *)
Lemma pack_packages_spec (self : Archiver) (password : option string)
    (backup exclude_from_package_control : bool) (kw : kwargs.t)
    (exe : string) (w : World) :
  utils.get_7za_bin = Some exe ->
  let excluded_dirs :=
    default [] (kwargs.excluded_dirs kw)
    ++ map (os_path.join (os_path.basename sublime.packages_path))
           blacklist.packages
    ++ map (os_path.join (os_path.basename sublime.installed_packages_path))
           blacklist.installed_packages
    ++ (if (exclude_from_package_control && negb backup)%bool
        then _excludes_from_package_control self else []) in
  let name :=
    match kwargs.output_filename kw with
    | Some given => given
    | None => utils.temp_filename (temp_seq w)
    end in
  let args :=
    [exe; "a"; "-tzip"; "-y"]
      ++ match password with Some p => ["-p" +:+ p] | None => [] end
      ++ map (fun d => "-x!" +:+ d +:+ "*") excluded_dirs
      ++ [name] ++ pydict.keys (directory_list self) in
  let si := if _is_os_nt self then Some {| dwFlags := 1 |} else None in
  pack_packages self password backup exclude_from_package_control kw w =
    (Return name,
     {| fs := snd (os.run_process args si (fs w));
        trace := trace w ++ [ev_Popen args si];
        temp_seq := match kwargs.output_filename kw with
                    | Some _ => temp_seq w
                    | None => S (temp_seq w)
                    end |}).
Proof.
  intros Hexe excluded_dirs name args si.
  unfold pack_packages. rewrite !fold_left_append_map.
  assert (Hlist :
    (if (exclude_from_package_control && negb backup)%bool
     then ((default [] (kwargs.excluded_dirs kw)
            ++ map (os_path.join (os_path.basename sublime.packages_path))
                   blacklist.packages)
           ++ map (os_path.join (os_path.basename sublime.installed_packages_path))
                  blacklist.installed_packages)
          ++ _excludes_from_package_control self
     else (default [] (kwargs.excluded_dirs kw)
           ++ map (os_path.join (os_path.basename sublime.packages_path))
                  blacklist.packages)
          ++ map (os_path.join (os_path.basename sublime.installed_packages_path))
                 blacklist.installed_packages) = excluded_dirs).
  { subst excluded_dirs.
    destruct (exclude_from_package_control && negb backup)%bool;
      rewrite <- ?app_assoc, ?app_nil_r; reflexivity. }
  rewrite Hlist. clear Hlist.
  destruct (kwargs.output_filename kw) as [given|] eqn:Hout; cbn [kwargs.set_excluded_dirs kwargs.output_filename].
  - rewrite Hout. rewrite bind_mret_l.
    assert (Hkw : kwargs.output_filename
                    (kwargs.set_excluded_dirs excluded_dirs kw) = Some given)
      by exact Hout.
    rewrite (bind_Return _ _ _ _ _
               (eq_trans (run_executable_a self password _ _ _ w Hexe Hkw)
                         (Popen_wait_spec _ _ _))).
    cbn. rewrite Hout. reflexivity.
  - rewrite Hout.
    rewrite (bind_Return (generate_temp_filename ≫= _) _ w
               {| fs := fs w; trace := trace w; temp_seq := S (temp_seq w) |}
               (kwargs.set_output_filename name
                  (kwargs.set_excluded_dirs excluded_dirs kw)) eq_refl).
    rewrite (bind_Return _ _ _ _ _
               (eq_trans
                  (run_executable_a self password
                     (kwargs.set_output_filename name
                        (kwargs.set_excluded_dirs excluded_dirs kw))
                     exe name _ Hexe eq_refl)
                  (Popen_wait_spec _ _ _))).
    reflexivity.
Qed.




End Runs.

(** ** The backups *)

Section Backups.
Context {paths : os_path.t} {editor : sublime.t} {black : blacklist.t}
  {tools : utils.t} {system : os.t}.

Lemma rmtree_ignore_errors_spec (path : string) (w : World) :
  shutil_rmtree_ignore_errors path w =
    (Return tt,
     {| fs := os.rmtree path (fs w);
        trace := trace w ++ [ev_rmtree path];
        temp_seq := temp_seq w |}).
Proof. reflexivity. Qed.

Lemma copytree_spec (src dst : string) (w : World) :
  shutil_copytree src dst w =
    (match fst (os.copytree src dst (fs w)) with
     | Some e => Raise e
     | None => Return tt
     end,
     {| fs := snd (os.copytree src dst (fs w));
        trace := trace w ++ [ev_copytree src dst];
        temp_seq := temp_seq w |}).
Proof.
  unfold shutil_copytree. run_monad.
  destruct (os.copytree src dst (fs w)) as [[e|] f']; reflexivity.
Qed.

(** [_safe_rmtree] calls [shutil.rmtree] only on a path that exists, and
    raises nothing. *)
Lemma safe_rmtree_spec (self : Archiver) (directory : string) (w : World) :
  _safe_rmtree self directory w =
    (Return tt,
     {| fs := if os.path_exists (fs w) directory
              then os.rmtree directory (fs w) else fs w;
        trace := trace w ++ (if os.path_exists (fs w) directory
                             then [ev_rmtree directory] else []);
        temp_seq := temp_seq w |}).
Proof.
  unfold _safe_rmtree, os_path_exists. run_monad.
  destruct (os.path_exists (fs w) directory).
  - apply rmtree_ignore_errors_spec.
  - destruct w as [f tr n]. cbn. by rewrite app_nil_r.
Qed.

(** [_safe_copy] calls [shutil.copytree] only when the destination does not
    exist, and raises what the call raises. *)
Lemma safe_copy_spec (self : Archiver) (source destination : string)
    (w : World) :
  let skipped := os.path_exists (fs w) destination in
  let result :=
    if skipped then (None, fs w)
    else os.copytree source destination (fs w) in
  _safe_copy self source destination w =
    (match fst result with
     | Some e => Raise e
     | None => Return tt
     end,
     {| fs := snd result;
        trace := trace w ++ (if skipped then []
                             else [ev_copytree source destination]);
        temp_seq := temp_seq w |}).
Proof.
  intros skipped result. subst skipped result.
  unfold _safe_copy, os_path_exists. run_monad.
  destruct (os.path_exists (fs w) destination); cbn.
  - destruct w as [f tr n]. cbn. by rewrite app_nil_r.
  - apply copytree_spec.
Qed.

(** [remove_backup_dirs] raises nothing; whether the second backup exists
    is looked up once the first one has been removed. *)
Lemma remove_backup_dirs_run (self : Archiver) (w : World) :
  let f1 :=
    if os.path_exists (fs w) (packages_bak_path self)
    then os.rmtree (packages_bak_path self) (fs w) else fs w in
  let f2 :=
    if os.path_exists f1 (installed_packages_bak_path self)
    then os.rmtree (installed_packages_bak_path self) f1 else f1 in
  remove_backup_dirs self w =
    (Return tt,
     {| fs := f2;
        trace := trace w
                 ++ (if os.path_exists (fs w) (packages_bak_path self)
                     then [ev_rmtree (packages_bak_path self)] else [])
                 ++ (if os.path_exists f1 (installed_packages_bak_path self)
                     then [ev_rmtree (installed_packages_bak_path self)]
                     else []);
        temp_seq := temp_seq w |}).
Proof.
  intros f1 f2. unfold remove_backup_dirs. cbn [for_each].
  rewrite (bind_Return _ _ _ _ _ (safe_rmtree_spec self _ w)).
  rewrite (bind_Return _ _ _ _ _ (safe_rmtree_spec self _ _)).
  cbn [fs trace temp_seq]. rewrite <- app_assoc. reflexivity.
Qed.

(** [move_packages_to_backup_dirs] is the two copies run after
    [remove_backup_dirs]. *)
Lemma move_packages_after_removal (self : Archiver) (w : World) :
  move_packages_to_backup_dirs self w =
    (_safe_copy self sublime.installed_packages_path
       (installed_packages_bak_path self);;
     _safe_copy self sublime.packages_path (packages_bak_path self))
      (snd (remove_backup_dirs self w)).
Proof.
  unfold move_packages_to_backup_dirs.
  by rewrite (bind_Return _ _ _ _ _ (remove_backup_dirs_run self w)),
    remove_backup_dirs_run.
Qed.

(** The whole run of [move_packages_to_backup_dirs]. *)
Lemma move_packages_run (self : Archiver) (w : World) :
  let packages_bak := packages_bak_path self in
  let installed_bak := installed_packages_bak_path self in
  let f1 :=
    if os.path_exists (fs w) packages_bak
    then os.rmtree packages_bak (fs w) else fs w in
  let f2 :=
    if os.path_exists f1 installed_bak
    then os.rmtree installed_bak f1 else f1 in
  let removals :=
    (if os.path_exists (fs w) packages_bak
     then [ev_rmtree packages_bak] else [])
    ++ (if os.path_exists f1 installed_bak
        then [ev_rmtree installed_bak] else []) in
  let first :=
    if os.path_exists f2 installed_bak then (None, f2)
    else os.copytree sublime.installed_packages_path installed_bak f2 in
  let first_call :=
    if os.path_exists f2 installed_bak then []
    else [ev_copytree sublime.installed_packages_path installed_bak] in
  let second :=
    if os.path_exists (snd first) packages_bak then (None, snd first)
    else os.copytree sublime.packages_path packages_bak (snd first) in
  let second_call :=
    if os.path_exists (snd first) packages_bak then []
    else [ev_copytree sublime.packages_path packages_bak] in
  move_packages_to_backup_dirs self w =
    match fst first with
    | Some e =>
        (Raise e,
         {| fs := snd first;
            trace := trace w ++ removals ++ first_call;
            temp_seq := temp_seq w |})
    | None =>
        (match fst second with
         | Some e => Raise e
         | None => Return tt
         end,
         {| fs := snd second;
            trace := trace w ++ removals ++ first_call ++ second_call;
            temp_seq := temp_seq w |})
    end.
Proof.
  intros packages_bak installed_bak f1 f2 removals first first_call
    second second_call.
  rewrite move_packages_after_removal, remove_backup_dirs_run.
  cbn [snd]. fold packages_bak installed_bak f1 f2 removals.
  unfold mbind, M_bind. rewrite safe_copy_spec. cbn [fs trace temp_seq].
  fold first first_call.
  destruct (fst first) as [e|].
  - by rewrite <- app_assoc.
  - rewrite safe_copy_spec. cbn [fs trace temp_seq].
    fold second second_call. by rewrite <- !app_assoc.
Qed.

End Backups.

(** ** The claims about single methods *)

Section Claims.
Context {paths : os_path.t} {editor : sublime.t} {black : blacklist.t}
  {tools : utils.t} {system : os.t}.

(** C6: [_get_7za_executable] raises the generic [Exception] if and only if
    [get_7za_bin()] is [None]; it raises nothing else, and when the binary is
    found its path is returned unchanged.  The world is left as it was. *)
Theorem get_7za_executable_spec (self : Archiver) (w : World) :
  ((exists msg, fst (_get_7za_executable self w) = Raise (Exception msg))
     <-> utils.get_7za_bin = None)
  /\ ((exists e, fst (_get_7za_executable self w) = Raise e)
        <-> utils.get_7za_bin = None)
  /\ (forall zip_bin, utils.get_7za_bin = Some zip_bin ->
        _get_7za_executable self w = (Return zip_bin, w))
  /\ snd (_get_7za_executable self w) = w.
Proof.
  unfold _get_7za_executable.
  destruct utils.get_7za_bin as [zip_bin|]; cbn.
  - repeat split; try discriminate.
    + intros [msg Hm]. discriminate Hm.
    + intros [e He]. discriminate He.
    + intros b [= <-]. reflexivity.
  - repeat split; try discriminate; eauto.
Qed.

(** C3: a pack invocation runs the archiver once, on the command line made
    of the binary, [a], [-tzip], [-y], the password flag when a password is
    given, one exclusion flag per excluded directory in the order of the
    list, the output file name, and the two package directories. *)
Theorem pack_command_line (password : option string) (kw : kwargs.t)
    (exe out : string) (w : World) :
  utils.get_7za_bin = Some exe ->
  kwargs.output_filename kw = Some out ->
  sublime.packages_path <> sublime.installed_packages_path ->
  trace (snd (_run_executable __init__ "a" password kw w)) =
    trace w ++
    [ev_Popen
       ([exe; "a"; "-tzip"; "-y"]
          ++ match password with Some p => ["-p" +:+ p] | None => [] end
          ++ map (fun d => "-x!" +:+ d +:+ "*")
                 (default [] (kwargs.excluded_dirs kw))
          ++ [out; sublime.packages_path; sublime.installed_packages_path])
       (if _is_os_nt __init__ then Some {| dwFlags := 1 |} else None)].
Proof.
  intros Hexe Hout Hne.
  rewrite (run_executable_a _ _ _ _ _ _ Hexe Hout), Popen_wait_spec.
  cbn [snd trace]. by rewrite (directory_list_distinct Hne).
Qed.

(** C10: in a pack and in an unpack invocation alike, the command line for
    a password [p] is the command line for no password with the one
    argument [-p] followed by [p] put in; the empty password gives the bare
    argument [-p]. *)
Theorem password_flag (self : Archiver) (kwa kwx : kwargs.t)
    (exe out input dir : string) (w : World) :
  utils.get_7za_bin = Some exe ->
  kwargs.output_filename kwa = Some out ->
  kwargs.input_file kwx = Some input ->
  kwargs.output_dir kwx = Some dir ->
  let si := if _is_os_nt self then Some {| dwFlags := 1 |} else None in
  let excluded :=
    map (fun d => "-x!" +:+ d +:+ "*") (default [] (kwargs.excluded_dirs kwa)) in
  let dirs := pydict.keys (directory_list self) in
  let ran (command : string) (password : option string) (kw : kwargs.t) :=
    trace (snd (_run_executable self command password kw w)) in
  ran "a" None kwa =
    trace w ++ [ev_Popen ([exe; "a"; "-tzip"; "-y"] ++ excluded ++ [out] ++ dirs) si]
  /\ (forall p,
        ran "a" (Some p) kwa =
          trace w ++
          [ev_Popen ([exe; "a"; "-tzip"; "-y"] ++ ["-p" +:+ p]
                       ++ excluded ++ [out] ++ dirs) si])
  /\ ran "a" (Some "") kwa =
       trace w ++
       [ev_Popen ([exe; "a"; "-tzip"; "-y"] ++ ["-p"] ++ excluded ++ [out] ++ dirs) si]
  /\ ran "x" None kwx =
       trace w ++ [ev_Popen ([exe; "x"; "-tzip"; "-y"; "-o" +:+ dir] ++ [input]) si]
  /\ (forall p,
        ran "x" (Some p) kwx =
          trace w ++
          [ev_Popen ([exe; "x"; "-tzip"; "-y"; "-o" +:+ dir]
                       ++ ["-p" +:+ p] ++ [input]) si])
  /\ ran "x" (Some "") kwx =
       trace w ++
       [ev_Popen ([exe; "x"; "-tzip"; "-y"; "-o" +:+ dir] ++ ["-p"] ++ [input]) si].
Proof.
  intros Hexe Hout Hin Hdir si excluded dirs ran. subst ran. cbv beta.
  repeat split; intros;
    first [ rewrite (run_executable_a _ _ _ _ _ _ Hexe Hout)
          | rewrite (run_executable_x _ _ _ _ _ _ _ Hexe Hin Hdir) ];
    rewrite Popen_wait_spec; reflexivity.
Qed.

(** C7: without an output directory, [unpack_packages] extracts into the
    parent of the packages path, and runs the archiver once on the binary,
    [x], [-tzip], [-y], [-o] with that directory, the password flag when a
    password is given, and the input file. *)
Theorem unpack_default_command_line (input_file : string)
    (password : option string) (exe : string) (w : World) :
  utils.get_7za_bin = Some exe ->
  let output_dir :=
    os_path.abspath (os_path.join sublime.packages_path os_path.pardir) in
  _get_output_dir __init__ w = (Return output_dir, w)
  /\ trace (snd (unpack_packages __init__ input_file None password w)) =
       trace w ++
       [ev_Popen
          ([exe; "x"; "-tzip"; "-y"; "-o" +:+ output_dir]
             ++ match password with Some p => ["-p" +:+ p] | None => [] end
             ++ [input_file])
          (if _is_os_nt __init__ then Some {| dwFlags := 1 |} else None)]
  /\ fst (unpack_packages __init__ input_file None password w) = Return tt.
Proof.
  intros Hexe output_dir.
  assert (Hdir : _get_output_dir __init__ w = (Return output_dir, w)).
  { unfold _get_output_dir.
    destruct directory_list_first_key as [rest ->]. reflexivity. }
  split; [exact Hdir|].
  unfold unpack_packages. rewrite (bind_Return _ _ _ _ _ Hdir).
  erewrite bind_Return
    by (erewrite run_executable_x by (try exact Hexe; reflexivity);
        apply Popen_wait_spec).
  split; reflexivity.
Qed.

(** C8, as the code has it: any command other than [a] and [x] fails the
    first assertion; [a] without an output file name and [x] without an
    input file or an output directory fail the second one; under the
    preconditions no assertion fails, and the command line is built and run
    when the archiver binary is found, while a missing binary raises the
    exception of [_get_7za_executable] before the list exists.  On no input
    is the unassigned [command_args] ever read. *)
Theorem run_executable_defined (self : Archiver) (command : string)
    (password : option string) (kw : kwargs.t) (w : World) :
  (command <> "a" -> command <> "x" ->
     _run_executable self command password kw w = (Raise AssertionError, w))
  /\ (command = "a" -> kwargs.output_filename kw = None ->
        _run_executable self command password kw w = (Raise AssertionError, w))
  /\ (command = "x" ->
        kwargs.input_file kw = None \/ kwargs.output_dir kw = None ->
        _run_executable self command password kw w = (Raise AssertionError, w))
  /\ ((command = "a" /\ is_Some (kwargs.output_filename kw))
      \/ (command = "x" /\ is_Some (kwargs.input_file kw)
          /\ is_Some (kwargs.output_dir kw)) ->
        match utils.get_7za_bin with
        | Some exe =>
            exists args si,
              _run_executable self command password kw w =
                subprocess_Popen_wait (exe :: command :: args) si w
        | None =>
            _run_executable self command password kw w =
              (Raise (Exception "Couldn't find 7za binary"), w)
        end)
  /\ (forall var,
        fst (_run_executable self command password kw w)
          <> Raise (UnboundLocalError var)).
Proof.
  assert (Hother : command <> "a" -> command <> "x" ->
            _run_executable self command password kw w = (Raise AssertionError, w)).
  { intros Ha Hx. unfold _run_executable. apply assert_false.
    apply bool_decide_eq_false_2. rewrite !elem_of_cons, elem_of_nil. tauto. }
  assert (Ha : command = "a" -> kwargs.output_filename kw = None ->
            _run_executable self command password kw w = (Raise AssertionError, w)).
  { intros -> Hout. unfold _run_executable. rewrite Hout.
    rewrite assert_true by reflexivity. reflexivity. }
  assert (Hx : command = "x" ->
            kwargs.input_file kw = None \/ kwargs.output_dir kw = None ->
            _run_executable self command password kw w = (Raise AssertionError, w)).
  { intros -> Hmiss. unfold _run_executable.
    rewrite assert_true by reflexivity.
    destruct Hmiss as [-> | ->]; [reflexivity|].
    destruct (kwargs.input_file kw); reflexivity. }
  assert (Hpre :
    (command = "a" /\ is_Some (kwargs.output_filename kw))
    \/ (command = "x" /\ is_Some (kwargs.input_file kw)
        /\ is_Some (kwargs.output_dir kw)) ->
    match utils.get_7za_bin with
    | Some exe =>
        exists args si,
          _run_executable self command password kw w =
            subprocess_Popen_wait (exe :: command :: args) si w
    | None =>
        _run_executable self command password kw w =
          (Raise (Exception "Couldn't find 7za binary"), w)
    end).
  { intros [[-> [out Hout]] | [-> [[input Hin] [dir Hdir]]]];
      destruct utils.get_7za_bin as [exe|] eqn:Hexe.
    - do 2 eexists. by apply run_executable_a.
    - unfold _run_executable, _get_7za_executable. rewrite Hexe, Hout.
      rewrite assert_true by reflexivity. reflexivity.
    - do 2 eexists. by apply run_executable_x.
    - unfold _run_executable, _get_7za_executable. rewrite Hexe, Hin, Hdir.
      rewrite assert_true by reflexivity. reflexivity. }
  repeat split; try assumption.
  intros var.
  destruct (decide (command = "a")) as [Ea|Na].
  - destruct (kwargs.output_filename kw) as [out|] eqn:Hout.
    + specialize (Hpre ltac:(left; split; [exact Ea | by eexists])).
      destruct utils.get_7za_bin.
      * destruct Hpre as (args & si & ->). by rewrite Popen_wait_spec.
      * by rewrite Hpre.
    + by rewrite Ha.
  - destruct (decide (command = "x")) as [Ex|Nx]; [|by rewrite Hother].
    destruct (kwargs.input_file kw) as [input|] eqn:Hin;
      [|by rewrite Hx by auto].
    destruct (kwargs.output_dir kw) as [dir|] eqn:Hdir;
      [|by rewrite Hx by auto].
    specialize (Hpre ltac:(right; repeat split; [exact Ex | by eexists..])).
    destruct utils.get_7za_bin.
    + destruct Hpre as (args & si & ->). by rewrite Popen_wait_spec.
    + by rewrite Hpre.
Qed.

(** C1: the exclusion flags on the archiver's command line are those of the
    caller's [excluded_dirs] (none when the key is absent), then of the
    names of [blacklist.packages] joined under the base name of the packages
    path, then of the names of [blacklist.installed_packages] joined under
    the base name of the installed-packages path, then of the Package
    Control exclusions exactly when [exclude_from_package_control] holds and
    [backup] does not. *)
Theorem pack_exclusion_list (password : option string)
    (backup exclude_from_package_control : bool) (kw : kwargs.t)
    (exe : string) (w : World) :
  utils.get_7za_bin = Some exe ->
  trace (snd (pack_packages __init__ password backup
                exclude_from_package_control kw w)) =
    trace w ++
    [ev_Popen
       ([exe; "a"; "-tzip"; "-y"]
          ++ match password with Some p => ["-p" +:+ p] | None => [] end
          ++ map (fun d => "-x!" +:+ d +:+ "*")
               (default [] (kwargs.excluded_dirs kw)
                ++ map (os_path.join (os_path.basename sublime.packages_path))
                       blacklist.packages
                ++ map (os_path.join
                          (os_path.basename sublime.installed_packages_path))
                       blacklist.installed_packages
                ++ (if (exclude_from_package_control && negb backup)%bool
                    then _excludes_from_package_control __init__ else []))
          ++ [match kwargs.output_filename kw with
              | Some given => given
              | None => utils.temp_filename (temp_seq w)
              end]
          ++ pydict.keys (directory_list __init__))
       (if _is_os_nt __init__ then Some {| dwFlags := 1 |} else None)].
Proof.
  intros Hexe. by rewrite (pack_packages_spec _ _ _ _ _ _ _ Hexe).
Qed.



(** ** The Package Control exclusions *)

(** C9: with the two directories in the dictionary, the list holds, for
    each installed package whose lower-cased name is not [package control]
    and in the order of the settings, the name joined under the base name
    of the packages path, then the name joined under the base name of the
    installed-packages path with [.sublime-package] appended: two entries
    for each such package, and none that comes from a name which is
    [package control] in some letter case. *)
Theorem excludes_from_package_control_spec :
  sublime.packages_path <> sublime.installed_packages_path ->
  let installed_packages :=
    default [] (sublime.load_settings "Package Control.sublime-settings"
                  !! "installed_packages") in
  let kept :=
    filter (fun name => pystr.lower name <> "package control")
           installed_packages in
  let entries (name : string) :=
    [os_path.join (os_path.basename sublime.packages_path) name;
     os_path.join (os_path.basename sublime.installed_packages_path) name
       +:+ ".sublime-package"] in
  _excludes_from_package_control __init__ = flat_map entries kept
  /\ length (_excludes_from_package_control __init__) = (2 * length kept)%nat
  /\ (forall name, name ∈ kept <->
        name ∈ installed_packages /\ pystr.lower name <> "package control")
  /\ (forall entry, entry ∈ _excludes_from_package_control __init__ ->
        exists name,
          name ∈ installed_packages
          /\ pystr.lower name <> "package control"
          /\ entry ∈ entries name).
Proof.
  intros Hne installed_packages kept entries.
  assert (Heq : _excludes_from_package_control __init__ = flat_map entries kept).
  { unfold _excludes_from_package_control, pydict.items.
    rewrite (directory_list_distinct Hne).
    apply flat_map_ext. intros name. subst entries. cbn [map].
    by rewrite <- !os_path.basename_split, append_empty_r. }
  assert (Hkept : forall name, name ∈ kept <->
            name ∈ installed_packages /\ pystr.lower name <> "package control").
  { intros name. subst kept. rewrite list_elem_of_filter. tauto. }
  repeat split; try (by apply Hkept).
  - exact Heq.
  - rewrite Heq. clear Heq Hkept. induction kept as [|name kept IH]; [done|].
    cbn [flat_map]. rewrite length_app, IH. subst entries. simpl. lia.
  - intros entry Hin. rewrite Heq in Hin.
    apply list_elem_of_In, in_flat_map in Hin as (name & Hname & Hentry).
    apply list_elem_of_In, Hkept in Hname as [Hname Hlow].
    exists name. repeat split; try done. by apply list_elem_of_In.
Qed.

(** ** Moving the packages to their backups *)

(** C4: [move_packages_to_backup_dirs] first calls [shutil.rmtree], errors
    ignored, on the backup of the packages and then on the backup of the
    installed packages, each only if it exists by then; a backup that does
    not exist leaves the file system as it is.  Then it calls
    [shutil.copytree] from the installed packages and then from the
    packages to their [.bak] paths, each only if that path does not exist
    by then; a destination that exists is left as it is by that step.  What
    the first failing copy raises is raised, and nothing else is. *)
Theorem move_packages_to_backup_dirs_spec (w : World) :
  let packages_bak := sublime.packages_path +:+ ".bak" in
  let installed_bak := sublime.installed_packages_path +:+ ".bak" in
  (* the removal of the old backups *)
  let f1 :=
    if os.path_exists (fs w) packages_bak
    then os.rmtree packages_bak (fs w) else fs w in
  let f2 :=
    if os.path_exists f1 installed_bak
    then os.rmtree installed_bak f1 else f1 in
  let removals :=
    (if os.path_exists (fs w) packages_bak
     then [ev_rmtree packages_bak] else [])
    ++ (if os.path_exists f1 installed_bak
        then [ev_rmtree installed_bak] else []) in
  (* the copy of the installed packages *)
  let first :=
    if os.path_exists f2 installed_bak then (None, f2)
    else os.copytree sublime.installed_packages_path installed_bak f2 in
  let first_call :=
    if os.path_exists f2 installed_bak then []
    else [ev_copytree sublime.installed_packages_path installed_bak] in
  (* the copy of the packages *)
  let second :=
    if os.path_exists (snd first) packages_bak then (None, snd first)
    else os.copytree sublime.packages_path packages_bak (snd first) in
  let second_call :=
    if os.path_exists (snd first) packages_bak then []
    else [ev_copytree sublime.packages_path packages_bak] in
  move_packages_to_backup_dirs __init__ w =
    match fst first with
    | Some e =>
        (Raise e,
         {| fs := snd first;
            trace := trace w ++ removals ++ first_call;
            temp_seq := temp_seq w |})
    | None =>
        (match fst second with
         | Some e => Raise e
         | None => Return tt
         end,
         {| fs := snd second;
            trace := trace w ++ removals ++ first_call ++ second_call;
            temp_seq := temp_seq w |})
    end.
Proof.
  intros packages_bak installed_bak f1 f2 removals first first_call
    second second_call.
  unfold move_packages_to_backup_dirs, remove_backup_dirs.
  cbn [for_each packages_bak_path installed_packages_bak_path __init__].
  fold packages_bak installed_bak.
  (* the two removals *)
  rewrite !bind_assoc.
  rewrite (bind_Return _ _ _ _ _ (safe_rmtree_spec __init__ packages_bak w)).
  rewrite !bind_assoc.
  rewrite (bind_Return _ _ _ _ _ (safe_rmtree_spec __init__ installed_bak _)).
  rewrite bind_mret_l. cbn [fs trace temp_seq]. fold f1 f2.
  (* the copy of the installed packages *)
  unfold mbind, M_bind. rewrite safe_copy_spec. cbn [fs trace temp_seq].
  fold first first_call.
  destruct (fst first) as [e|].
  - subst removals. by rewrite <- !app_assoc.
  - (* the copy of the packages *)
    rewrite safe_copy_spec. cbn [fs trace temp_seq].
    fold second second_call. subst removals. by rewrite <- !app_assoc.
Qed.

(** ** Without the archiver binary *)

(** Without the archiver binary, packing and unpacking raise the exception
    of [_get_7za_executable] and run no process; packing has by then taken a
    temporary name if none was passed. *)
Theorem missing_binary_raises (password : option string) (w : World) :
  utils.get_7za_bin = None ->
  (forall backup exclude_from_package_control kw,
     pack_packages __init__ password backup exclude_from_package_control kw w =
       (Raise (Exception "Couldn't find 7za binary"),
        {| fs := fs w; trace := trace w;
           temp_seq := match kwargs.output_filename kw with
                       | Some _ => temp_seq w
                       | None => S (temp_seq w)
                       end |}))
  /\ (forall input_file output_dir,
        unpack_packages __init__ input_file output_dir password w =
          (Raise (Exception "Couldn't find 7za binary"), w)).
Proof.
  intros Hexe. split.
  - intros backup epc kw. unfold pack_packages.
    destruct (kwargs.output_filename kw) as [given|] eqn:Hout;
      cbn [kwargs.set_excluded_dirs kwargs.output_filename]; rewrite Hout.
    + rewrite bind_mret_l.
      erewrite bind_Raise;
        [|apply run_executable_no_binary; [exact Hexe|]].
      * by destruct w.
      * left. split; [done|]. cbn. rewrite Hout. by eexists.
    + erewrite bind_Return; [|reflexivity].
      erewrite bind_Raise;
        [reflexivity|apply run_executable_no_binary; [exact Hexe|]].
      left. split; [done|]. by eexists.
  - intros input_file output_dir. unfold unpack_packages.
    destruct output_dir as [output_dir|].
    + rewrite bind_mret_l.
      erewrite bind_Raise;
        [reflexivity|apply run_executable_no_binary; [exact Hexe|]].
      right. repeat split; by eexists.
    + destruct directory_list_first_key as [rest Hkeys].
      unfold _get_output_dir. rewrite Hkeys, bind_mret_l.
      erewrite bind_Raise;
        [reflexivity|apply run_executable_no_binary; [exact Hexe|]].
      right. repeat split; by eexists.
Qed.

End Claims.

(** ** The default output directory on POSIX *)

(** On POSIX, when the packages path is an absolute path of plain
    components, the default output directory is that path without its last
    component: the directory that holds the packages directory. *)
Theorem posix_output_dir_is_parent (cwd : string) {editor : sublime.t}
    (comps : list string) (name : string) (w : World) :
  Forall posixpath.plain (comps ++ [name]) ->
  sublime.packages_path = "/" +:+ pystr.join posixpath.sep (comps ++ [name]) ->
  _get_output_dir (paths := Host.posix cwd) __init__ w =
    (Return ("/" +:+ pystr.join posixpath.sep comps), w).
Proof.
  intros Hall Hpath. unfold _get_output_dir.
  destruct directory_list_first_key as [rest ->].
  rewrite Hpath. cbn [os_path.abspath os_path.join os_path.pardir Host.posix].
  by rewrite (posixpath_facts.abspath_parent cwd _ _ Hall).
Qed.

(** * Further properties *)

(** ** The backups on any system *)

Section BackupProperties.
Context {paths : os_path.t} {editor : sublime.t} {black : blacklist.t}
  {tools : utils.t} {system : os.t}.

(** Whatever the system does, and whether the call returns or raises,
    [move_packages_to_backup_dirs] calls [shutil.rmtree] on the two backup
    paths only and [shutil.copytree] into the two backup paths only, starts
    no process and generates no temporary name. *)
Theorem backup_calls_only_on_backups (self : Archiver) (w : World) :
  let after := snd (move_packages_to_backup_dirs self w) in
  temp_seq after = temp_seq w
  /\ exists calls,
       trace after = trace w ++ calls
       /\ forall call, call ∈ calls ->
            call ∈ [ev_rmtree (packages_bak_path self);
                    ev_rmtree (installed_packages_bak_path self);
                    ev_copytree sublime.installed_packages_path
                      (installed_packages_bak_path self);
                    ev_copytree sublime.packages_path
                      (packages_bak_path self)].
Proof.
  pose proof (move_packages_run self w) as Hrun. cbv zeta in Hrun.
  cbv zeta. rewrite Hrun. clear Hrun.
  match goal with
  | |- context [match fst ?first with _ => _ end] => destruct (fst first)
  end; cbn [snd temp_seq trace]; (split; [done|]);
    eexists; (split; [reflexivity|]);
    intros call;
    repeat match goal with
    | |- context [if ?b then _ else _] => destruct b
    end;
    rewrite ?app_nil_r; cbn [app];
    rewrite ?elem_of_cons, ?elem_of_nil; tauto.
Qed.

(** [remove_backup_dirs] raises nothing, whatever the system does.  It
    calls [shutil.rmtree] on the backup of the packages if it exists, then
    on the backup of the installed packages if it exists once the first
    call is done; when neither exists it leaves the world as it is. *)
Theorem remove_backup_dirs_spec (self : Archiver) (w : World) :
  let f1 :=
    if os.path_exists (fs w) (packages_bak_path self)
    then os.rmtree (packages_bak_path self) (fs w) else fs w in
  let f2 :=
    if os.path_exists f1 (installed_packages_bak_path self)
    then os.rmtree (installed_packages_bak_path self) f1 else f1 in
  remove_backup_dirs self w =
    (Return tt,
     {| fs := f2;
        trace := trace w
                 ++ (if os.path_exists (fs w) (packages_bak_path self)
                     then [ev_rmtree (packages_bak_path self)] else [])
                 ++ (if os.path_exists f1 (installed_packages_bak_path self)
                     then [ev_rmtree (installed_packages_bak_path self)]
                     else []);
        temp_seq := temp_seq w |})
  /\ (os.path_exists (fs w) (packages_bak_path self) = false ->
      os.path_exists (fs w) (installed_packages_bak_path self) = false ->
      remove_backup_dirs self w = (Return tt, w)).
Proof.
  intros f1 f2. split; [apply remove_backup_dirs_run|].
  intros Hp Hi. rewrite remove_backup_dirs_run. rewrite Hp, Hi.
  destruct w as [f tr n]. cbn. by rewrite app_nil_r.
Qed.

(** When both backup paths still exist once the removals have been tried,
    [move_packages_to_backup_dirs] returns normally without a call to
    [shutil.copytree], whether the packages directories exist or not: what
    the removals left stays in the place of the backups. *)
Theorem backup_kept_when_removal_fails (w : World) :
  let packages_bak := sublime.packages_path +:+ ".bak" in
  let installed_bak := sublime.installed_packages_path +:+ ".bak" in
  let f1 :=
    if os.path_exists (fs w) packages_bak
    then os.rmtree packages_bak (fs w) else fs w in
  let f2 :=
    if os.path_exists f1 installed_bak
    then os.rmtree installed_bak f1 else f1 in
  os.path_exists f2 packages_bak = true ->
  os.path_exists f2 installed_bak = true ->
  move_packages_to_backup_dirs __init__ w =
    (Return tt,
     {| fs := f2;
        trace := trace w
                 ++ (if os.path_exists (fs w) packages_bak
                     then [ev_rmtree packages_bak] else [])
                 ++ (if os.path_exists f1 installed_bak
                     then [ev_rmtree installed_bak] else []);
        temp_seq := temp_seq w |}).
Proof.
  intros packages_bak installed_bak f1 f2 Hp Hi.
  pose proof (move_packages_run __init__ w) as Hrun. cbv zeta in Hrun.
  rewrite Hrun. clear Hrun.
  cbn [packages_bak_path installed_packages_bak_path __init__].
  fold packages_bak installed_bak. fold f1. fold f2.
  rewrite Hi. cbn [fst snd]. rewrite Hp. cbn [fst snd].
  by rewrite !app_nil_r.
Qed.

End BackupProperties.

(** ** The output directory of [unpack_packages] *)

Section Unpack.
Context {paths : os_path.t} {editor : sublime.t} {black : blacklist.t}
  {tools : utils.t} {system : os.t}.


End Unpack.

(** ** The exclusions on POSIX *)

Module posixpath_names.
Import posixpath.

Lemma rfind_absent (c : ascii) (s : string) :
  pystr.contains c s = false -> pystr.rfind c s = -1.
Proof.
  induction s as [|a s IH]; [done|]. cbn [pystr.contains pystr.rfind].
  intros [Ha Hs]%orb_false_iff. by rewrite (IH Hs), Ha.
Qed.

Lemma rfind_last (c : ascii) (s t : string) :
  pystr.contains c t = false ->
  pystr.rfind c (s +:+ String c t) = Z.of_nat (String.length s).
Proof.
  intros Ht. induction s as [|a s IH].
  - change ("" +:+ String c t) with (String c t). cbn [pystr.rfind].
    by rewrite (rfind_absent _ _ Ht), Ascii.eqb_refl.
  - rewrite append_cons. cbn [pystr.rfind String.length]. rewrite IH.
    destruct (0 <=? Z.of_nat (String.length s)) eqn:E; [lia|].
    apply Z.leb_gt in E. lia.
Qed.

Lemma slice_from_past (c : ascii) (s t : string) :
  pystr.slice_from (S (String.length s)) (s +:+ String c t) = t.
Proof.
  induction s as [|a s IH]; [done|].
  rewrite append_cons. cbn [String.length]. exact IH.
Qed.

(** The base name of [s/t] is [t] when [t] holds no slash. *)
Lemma basename_last (s t : string) :
  pystr.contains sep t = false -> basename (s +:+ String sep t) = t.
Proof.
  intros Ht. unfold basename. rewrite (rfind_last _ _ _ Ht).
  replace (Z.to_nat (Z.of_nat (String.length s) + 1))
    with (S (String.length s)) by lia.
  apply slice_from_past.
Qed.

(** [join] under a directory name that is not empty and holds no slash. *)
Lemma join_under (base package : string) :
  base <> "" -> pystr.contains sep base = false ->
  join base package =
    if pystr.startswith sep package then package
    else base +:+ String sep package.
Proof.
  intros Hne Hsep. unfold join.
  rewrite (posixpath_facts.endswith_no_sep _ _ Hsep).
  apply String.eqb_neq in Hne. by rewrite Hne.
Qed.

End posixpath_names.

(** The command line of [pack_packages] on POSIX, for packages paths
    [.../name] and [.../name'] whose last components are not empty: each
    blacklisted name and each package of Package Control is excluded under
    [name/] and under [name'/], except that a name starting with a slash is
    taken as it is. *)
Theorem pack_packages_on_posix (cwd : string) {editor : sublime.t}
    {black : blacklist.t} {tools : utils.t} {system : os.t}
    (dir name dir' name' exe : string) (password : option string)
    (backup exclude_from_package_control : bool) (kw : kwargs.t) (w : World) :
  utils.get_7za_bin = Some exe ->
  os.name = "posix" ->
  sublime.packages_path = dir +:+ "/" +:+ name ->
  sublime.installed_packages_path = dir' +:+ "/" +:+ name' ->
  name <> "" -> pystr.contains "/" name = false ->
  name' <> "" -> pystr.contains "/" name' = false ->
  sublime.packages_path <> sublime.installed_packages_path ->
  let under (base package : string) :=
    if pystr.startswith "/" package then package
    else base +:+ "/" +:+ package in
  let handled :=
    filter (fun package => pystr.lower package <> "package control")
      (default [] (sublime.load_settings "Package Control.sublime-settings"
                     !! "installed_packages")) in
  let excluded_dirs :=
    default [] (kwargs.excluded_dirs kw)
    ++ map (under name) blacklist.packages
    ++ map (under name') blacklist.installed_packages
    ++ (if (exclude_from_package_control && negb backup)%bool
        then flat_map
               (fun package =>
                  [under name package;
                   under name' package +:+ ".sublime-package"])
               handled
        else []) in
  trace (snd (pack_packages (paths := Host.posix cwd) __init__ password backup
                exclude_from_package_control kw w)) =
    trace w ++
    [ev_Popen
       ([exe; "a"; "-tzip"; "-y"]
          ++ match password with Some p => ["-p" +:+ p] | None => [] end
          ++ map (fun d => "-x!" +:+ d +:+ "*") excluded_dirs
          ++ [match kwargs.output_filename kw with
              | Some given => given
              | None => utils.temp_filename (temp_seq w)
              end;
              sublime.packages_path; sublime.installed_packages_path])
       None].
Proof.
  intros Hexe Hos Hpp Hipp Hname Hsep Hname' Hsep' Hne under handled excluded_dirs.
  rewrite (pack_packages_spec (paths := Host.posix cwd) _ _ _ _ _ _ _ Hexe).
  cbn [snd trace]. unfold _is_os_nt. rewrite Hos.
  change (String.eqb "posix" "nt") with false. cbv iota.
  rewrite (directory_list_distinct Hne). cbn [pydict.keys map fst].
  assert (Hbase : os_path.basename (t := Host.posix cwd) sublime.packages_path = name).
  { rewrite Hpp. by apply posixpath_names.basename_last. }
  assert (Hbase' :
    os_path.basename (t := Host.posix cwd) sublime.installed_packages_path = name').
  { rewrite Hipp. by apply posixpath_names.basename_last. }
  assert (Hjoin : forall package,
    os_path.join (t := Host.posix cwd) name package = under name package).
  { intros package. by apply posixpath_names.join_under. }
  assert (Hjoin' : forall package,
    os_path.join (t := Host.posix cwd) name' package = under name' package).
  { intros package. by apply posixpath_names.join_under. }
  rewrite Hbase, Hbase'.
  assert (Hpc : _excludes_from_package_control (paths := Host.posix cwd) __init__
                = flat_map
                    (fun package =>
                       [under name package;
                        under name' package +:+ ".sublime-package"])
                    handled).
  { unfold _excludes_from_package_control, pydict.items.
    rewrite (directory_list_distinct Hne).
    apply flat_map_ext. intros package. cbn [map].
    rewrite <- !os_path.basename_split, Hbase, Hbase', Hjoin, Hjoin'.
    by rewrite append_empty_r. }
  rewrite Hpc.
  rewrite (List.map_ext _ _ Hjoin), (List.map_ext _ _ Hjoin').
  reflexivity.
Qed.

(** * The file system of POSIX *)

(** ** Directories and trees *)

Module posixfs_facts.
Import posixfs.

(** *** Directories *)

Lemma entry_without_same (x : string) (E : list (string * tree)) :
  entry x (without x E) = None.
Proof.
  induction E as [|[n t] E IH]; [done|]. cbn.
  destruct (String.eqb n x) eqn:Hn; [done|]. cbn. by rewrite Hn.
Qed.

Lemma entry_without_other (x y : string) (E : list (string * tree)) :
  x <> y -> entry y (without x E) = entry y E.
Proof.
  intros Hne. induction E as [|[n t] E IH]; [done|]. cbn.
  destruct (String.eqb n x) eqn:Hx.
  - apply String.eqb_eq in Hx as ->.
    apply String.eqb_neq in Hne. by rewrite Hne.
  - cbn. by rewrite IH.
Qed.

Lemma entry_replace_same (x : string) (t : tree) (E : list (string * tree)) :
  entry x (replace x t E) = Some t.
Proof.
  induction E as [|[n c] E IH]; cbn.
  - by rewrite String.eqb_refl.
  - destruct (String.eqb n x) eqn:Hn; cbn; by rewrite Hn.
Qed.

Lemma entry_replace_other (x y : string) (t : tree)
    (E : list (string * tree)) :
  x <> y -> entry y (replace x t E) = entry y E.
Proof.
  intros Hne. induction E as [|[n c] E IH]; cbn.
  - apply String.eqb_neq in Hne. by rewrite Hne.
  - destruct (String.eqb n x) eqn:Hx; cbn; [|by rewrite IH].
    apply String.eqb_eq in Hx as ->.
    apply String.eqb_neq in Hne. by rewrite Hne.
Qed.

Lemma without_absent (x : string) (E : list (string * tree)) :
  entry x E = None -> without x E = E.
Proof.
  induction E as [|[n t] E IH]; [done|]. cbn.
  destruct (String.eqb n x); [done|]. intros H. by rewrite (IH H).
Qed.

Lemma replace_same (x : string) (t : tree) (E : list (string * tree)) :
  entry x E = Some t -> replace x t E = E.
Proof.
  induction E as [|[n c] E IH]; [done|]. cbn.
  destruct (String.eqb n x).
  - by intros [= ->].
  - intros H. by rewrite (IH H).
Qed.

Lemma replace_replace (x : string) (t t' : tree) (E : list (string * tree)) :
  replace x t' (replace x t E) = replace x t' E.
Proof.
  induction E as [|[n c] E IH]; cbn.
  - by rewrite String.eqb_refl.
  - destruct (String.eqb n x) eqn:Hn; cbn; rewrite Hn; [done|].
    by rewrite IH.
Qed.

Lemma without_replace (x : string) (t : tree) (E : list (string * tree)) :
  without x (replace x t E) = without x E.
Proof.
  induction E as [|[n c] E IH]; cbn.
  - by rewrite String.eqb_refl.
  - destruct (String.eqb n x) eqn:Hn; cbn; rewrite Hn; [done|].
    by rewrite IH.
Qed.

Lemma without_replace_other (x y : string) (t : tree)
    (E : list (string * tree)) :
  x <> y -> without x (replace y t E) = replace y t (without x E).
Proof.
  intros Hne. induction E as [|[n c] E IH]; cbn.
  - assert (H : String.eqb y x = false) by by apply String.eqb_neq.
    by rewrite H.
  - destruct (String.eqb n y) eqn:Hy; cbn.
    + apply String.eqb_eq in Hy as ->.
      assert (H : String.eqb y x = false) by by apply String.eqb_neq.
      rewrite H. cbn. by rewrite String.eqb_refl.
    + destruct (String.eqb n x) eqn:Hx; [done|]. cbn. by rewrite Hy, IH.
Qed.

Lemma without_without (x : string) (E : list (string * tree)) :
  without x (without x E) = without x E.
Proof. apply without_absent, entry_without_same. Qed.

Lemma without_comm (x y : string) (E : list (string * tree)) :
  without x (without y E) = without y (without x E).
Proof.
  induction E as [|[n c] E IH]; [done|]. cbn.
  destruct (String.eqb n y) eqn:Hy, (String.eqb n x) eqn:Hx; cbn;
    rewrite ?Hx, ?Hy; by rewrite ?IH.
Qed.

(** *** Trees *)

Lemma resolve_app (dir loc : list string) (f : tree)
    (E : list (string * tree)) :
  resolve dir f = Found (Dir E) ->
  resolve (dir ++ loc) f = resolve loc (Dir E).
Proof.
  revert f. induction dir as [|n dir IH]; intros f; cbn.
  - by intros [= ->].
  - destruct f as [data|F]; [done|].
    destruct (entry n F) as [child|]; [apply IH | done].
Qed.

Lemma resolve_child (dir : list string) (x : string) (f : tree)
    (E : list (string * tree)) :
  resolve dir f = Found (Dir E) ->
  resolve (dir ++ [x]) f =
    match entry x E with Some t => Found t | None => Missing end.
Proof. intros H. by rewrite (resolve_app _ _ _ _ H). Qed.

(** A change right below the directory at [dir] is a change of that
    directory. *)
Lemma update_child (dir : list string) (x : string) (o : option tree)
    (f : tree) (E : list (string * tree)) :
  resolve dir f = Found (Dir E) ->
  update (dir ++ [x]) o f = update dir (Some (Dir (set_entry x o E))) f.
Proof.
  revert f. induction dir as [|n dir IH]; intros f; cbn [app resolve].
  - by intros [= ->].
  - destruct f as [data|F]; [done|].
    destruct (entry n F) as [child|] eqn:Hn; [|done]. intros Hdir.
    cbn [update]. rewrite Hn.
    destruct dir as [|m dir].
    + cbn in Hdir. injection Hdir as ->. reflexivity.
    + cbn [app]. by rewrite <- (IH _ Hdir).
Qed.

Lemma resolve_update (dir : list string) (t : tree) (f : tree)
    (E : list (string * tree)) :
  resolve dir f = Found (Dir E) ->
  resolve dir (update dir (Some t) f) = Found t.
Proof.
  revert f. induction dir as [|n dir IH]; intros f; cbn [resolve].
  - done.
  - destruct f as [data|F]; [done|].
    destruct (entry n F) as [child|] eqn:Hn; [|done]. intros Hdir.
    cbn [update]. destruct dir as [|m dir].
    + cbn. by rewrite entry_replace_same.
    + rewrite Hn. cbn [resolve]. rewrite entry_replace_same. by apply IH.
Qed.

Lemma update_cons (n m : string) (rest : list string) (o : option tree)
    (F : list (string * tree)) (child : tree) :
  entry n F = Some child ->
  update (n :: m :: rest) o (Dir F) =
    Dir (replace n (update (m :: rest) o child) F).
Proof.
  intros H.
  change (update (n :: m :: rest) o (Dir F))
    with (match entry n F with
          | Some child => Dir (replace n (update (m :: rest) o child) F)
          | None => Dir F
          end).
  by rewrite H.
Qed.

Lemma update_update (dir : list string) (t t' : tree) (f : tree)
    (E : list (string * tree)) :
  resolve dir f = Found (Dir E) ->
  update dir (Some t') (update dir (Some t) f) = update dir (Some t') f.
Proof.
  revert f. induction dir as [|n dir IH]; intros f; cbn [resolve].
  - done.
  - destruct f as [data|F]; [done|].
    destruct (entry n F) as [child|] eqn:Hn; [|done]. intros Hdir.
    destruct dir as [|m dir].
    + cbn. by rewrite replace_replace.
    + rewrite (update_cons _ _ _ _ _ _ Hn).
      rewrite (update_cons _ _ _ _ _ _ (entry_replace_same _ _ _)).
      rewrite (update_cons _ _ _ _ _ _ Hn).
      by rewrite replace_replace, (IH _ Hdir).
Qed.

Lemma update_same (dir : list string) (t : tree) (f : tree) :
  resolve dir f = Found t -> update dir (Some t) f = f.
Proof.
  revert f. induction dir as [|n dir IH]; intros f; cbn [resolve].
  - by intros [= ->].
  - destruct f as [data|F]; [done|].
    destruct (entry n F) as [child|] eqn:Hn; [|done]. intros Hdir.
    destruct dir as [|m dir].
    + cbn in Hdir. injection Hdir as ->. cbn.
      by rewrite (replace_same _ _ _ Hn).
    + rewrite (update_cons _ _ _ _ _ _ Hn), (IH _ Hdir).
      by rewrite (replace_same _ _ _ Hn).
Qed.

End posixfs_facts.

(** ** Normalized absolute paths *)

Module posixfs_paths.
Import posixpath posixfs.

Lemma plain_no_sep (comps : list string) :
  Forall plain comps -> Forall (fun s => pystr.contains sep s = false) comps.
Proof. intros H. eapply Forall_impl; [exact H|]. by intros c (_ & _ & _ & Hc). Qed.

Lemma filter_plain (comps : list string) :
  Forall plain comps ->
  List.filter (fun c => negb (String.eqb c "")) comps = comps.
Proof.
  induction 1 as [|c comps (Hc & _) _ IH]; [done|]. cbn.
  apply String.eqb_neq in Hc. by rewrite Hc, IH.
Qed.

Lemma split_absolute (comps : list string) :
  Forall plain comps ->
  List.filter (fun c => negb (String.eqb c ""))
    (pystr.split sep ("/" +:+ pystr.join sep comps)) = comps.
Proof.
  intros Hall. destruct comps as [|c comps]; [done|].
  change ("/" +:+ pystr.join sep (c :: comps))
    with (pystr.join sep ("" :: c :: comps)).
  rewrite posixpath_facts.split_join;
    [|done|constructor; [done|by apply plain_no_sep]].
  change (List.filter (fun c => negb (String.eqb c "")) ("" :: c :: comps))
    with (List.filter (fun c => negb (String.eqb c "")) (c :: comps)).
  by apply filter_plain.
Qed.

Lemma prefix_slashes (comps : list string) :
  Forall plain comps ->
  String.prefix "//" ("/" +:+ pystr.join sep comps) = false.
Proof.
  intros Hall. destruct comps as [|c comps]; [done|].
  inversion Hall as [|? ? Hc _]; subst.
  destruct (posixpath_facts.join_head c comps "" Hc) as (a & r & Hjoin & Ha).
  rewrite append_empty_r in Hjoin.
  change ("/" +:+ pystr.join sep (c :: comps))
    with (String sep (pystr.join sep (c :: comps))).
  rewrite Hjoin.
  change (String.prefix "//" (String sep (String a r)))
    with (if ascii_dec "/" sep
          then if ascii_dec "/" a then String.prefix "" r else false
          else false).
  destruct (ascii_dec "/" a) as [e|]; [by destruct Ha|].
  by destruct (ascii_dec "/" sep).
Qed.

(** [normpath] leaves an absolute path of plain components as it is. *)
Lemma normpath_absolute (comps : list string) :
  Forall plain comps ->
  normpath ("/" +:+ pystr.join sep comps) = "/" +:+ pystr.join sep comps.
Proof.
  intros Hall. destruct comps as [|c comps]; [done|].
  assert (Hsplit : pystr.split sep ("/" +:+ pystr.join sep (c :: comps)) =
                     "" :: c :: comps).
  { change ("/" +:+ pystr.join sep (c :: comps))
      with (pystr.join sep ("" :: c :: comps)).
    apply posixpath_facts.split_join; [done|].
    constructor; [done|by apply plain_no_sep]. }
  unfold normpath. rewrite (prefix_slashes _ Hall), Hsplit.
  change (String.eqb ("/" +:+ _) "") with false.
  change (pystr.startswith sep ("/" +:+ _)) with true.
  cbn [andb negb].
  change (fold_left (normpath_step 1) ("" :: c :: comps) [])
    with (fold_left (normpath_step 1) (c :: comps) []).
  rewrite (posixpath_facts.normpath_fold_plain _ _ _ Hall). cbn [app].
  reflexivity.
Qed.

(** The place that such a path names. *)
Lemma locate_absolute (cwd : string) (comps : list string) :
  Forall plain comps ->
  locate cwd ("/" +:+ pystr.join sep comps) = comps.
Proof.
  intros Hall. unfold locate, abspath.
  change (isabs ("/" +:+ _)) with true. cbv iota.
  rewrite (normpath_absolute _ Hall). by apply split_absolute.
Qed.

(** The last component, apart. *)
Lemma absolute_snoc (dir : list string) (x : string) :
  exists pre,
    (forall y, "/" +:+ pystr.join sep (dir ++ [y]) = pre +:+ String sep y)
    /\ (dir = [] -> pre = "")
    /\ (dir <> [] -> pre = "/" +:+ pystr.join sep dir).
Proof.
  destruct dir as [|c dir].
  - exists "". by repeat split.
  - exists ("/" +:+ pystr.join sep (c :: dir)). repeat split; [|done].
    intros y. rewrite (posixpath_facts.join_snoc sep (c :: dir) y ltac:(done)).
    by rewrite posixpath_facts.append_assoc.
Qed.

Lemma absolute_append (dir : list string) (x s : string) :
  ("/" +:+ pystr.join sep (dir ++ [x])) +:+ s =
    "/" +:+ pystr.join sep (dir ++ [x +:+ s]).
Proof.
  destruct (absolute_snoc dir x) as (pre & Hpre & _).
  rewrite !Hpre, posixpath_facts.append_assoc. by rewrite append_cons.
Qed.

Lemma contains_append (c : ascii) (s t : string) :
  pystr.contains c (s +:+ t) = (pystr.contains c s || pystr.contains c t)%bool.
Proof.
  induction s as [|a s IH]; [done|].
  rewrite append_cons. cbn. by rewrite IH, orb_assoc.
Qed.

Lemma plain_append (x s : string) :
  plain x -> pystr.contains sep s = false -> plain (x +:+ s).
Proof.
  intros (H0 & H1 & H2 & Hsep) Hs. unfold plain, curdir, pardir in *.
  destruct x as [|a r]; [done|]. rewrite append_cons.
  repeat split; try done.
  - intros [= -> Hr]. destruct r; [done|]. by rewrite append_cons in Hr.
  - intros [= -> Hr]. destruct r as [|b r]; [done|].
    rewrite append_cons in Hr. injection Hr as -> Hr.
    destruct r; [done|]. by rewrite append_cons in Hr.
  - rewrite <- append_cons, contains_append. by rewrite Hsep, Hs.
Qed.

(** *** [split] *)

Lemma slice_to_past (c : ascii) (s t : string) :
  pystr.slice_to (S (String.length s)) (s +:+ String c t) = s +:+ String c "".
Proof.
  induction s as [|a s IH]; [done|].
  rewrite !append_cons.
  change (String a (pystr.slice_to (S (String.length s)) (s +:+ String c t))
          = String a (s +:+ String c "")).
  by rewrite IH.
Qed.

Lemma rstrip_keeps (c : ascii) (s : string) :
  s <> "" -> pystr.endswith c s = false -> pystr.rstrip c s = s.
Proof.
  induction s as [|a s IH]; [done|]. intros _ Hend.
  cbn [pystr.rstrip]. destruct s as [|b s].
  - cbn in *. by rewrite Hend.
  - rewrite IH; [done|done|exact Hend].
Qed.

Lemma rstrip_sep (c : ascii) (s : string) :
  s <> "" -> pystr.endswith c s = false ->
  pystr.rstrip c (s +:+ String c "") = s.
Proof.
  induction s as [|a s IH]; [done|]. intros _ Hend.
  rewrite append_cons. cbn [pystr.rstrip]. destruct s as [|b s].
  - change ("" +:+ String c "") with (String c "").
    cbn [pystr.rstrip]. rewrite Ascii.eqb_refl. cbn in Hend. by rewrite Hend.
  - rewrite IH; [done|done|exact Hend].
Qed.

Lemma absolute_not_slashes (c : string) (comps : list string) (n : nat) :
  plain c ->
  ("/" +:+ pystr.join sep (c :: comps)) +:+ "/" <> pystr.repeat sep n.
Proof.
  intros Hc.
  destruct (posixpath_facts.join_head c comps "/" Hc) as (a & r & Hjoin & Ha).
  rewrite posixpath_facts.append_assoc.
  change ("/" +:+ pystr.join sep (c :: comps) +:+ "/")
    with (String sep (pystr.join sep (c :: comps) +:+ "/")).
  rewrite Hjoin. destruct n as [|[|n]]; try done. cbn. by intros [= ->].
Qed.

Lemma absolute_end (c : string) (comps : list string) :
  Forall plain (c :: comps) ->
  pystr.endswith sep ("/" +:+ pystr.join sep (c :: comps)) = false.
Proof.
  intros Hall.
  destruct (exists_last (l := c :: comps) ltac:(done)) as (dir & x & E).
  rewrite E in *. apply Forall_app in Hall as [_ Hx].
  inversion Hx as [|? ? (Hne & _ & _ & Hsep) _]; subst.
  destruct (posixpath_facts.join_last dir x) as [pre ->].
  rewrite <- (posixpath_facts.append_assoc "/" pre x).
  rewrite (posixpath_facts.endswith_append _ _ _ Hne).
  by apply posixpath_facts.endswith_no_sep.
Qed.

(** [split] of an absolute path of plain components. *)
Lemma split_absolute_snoc (dir : list string) (x : string) :
  Forall plain (dir ++ [x]) ->
  posixpath.split ("/" +:+ pystr.join sep (dir ++ [x])) =
    ("/" +:+ pystr.join sep dir, x).
Proof.
  intros Hall. apply Forall_app in Hall as [Hdir Hx].
  inversion Hx as [|? ? (Hne & _ & _ & Hsep) _]; subst.
  destruct (absolute_snoc dir x) as (pre & Hpre & Hnil & Hcons).
  unfold posixpath.split. rewrite Hpre.
  rewrite (posixpath_names.rfind_last _ _ _ Hsep).
  replace (Z.to_nat (Z.of_nat (String.length pre) + 1))
    with (S (String.length pre)) by lia.
  rewrite slice_to_past, posixpath_names.slice_from_past. f_equal.
  destruct dir as [|c dir].
  - rewrite (Hnil eq_refl). reflexivity.
  - rewrite (Hcons ltac:(done)). 
    assert (Hns : String.eqb
              (("/" +:+ pystr.join sep (c :: dir)) +:+ String sep "")
              (pystr.repeat sep
                 (String.length
                    (("/" +:+ pystr.join sep (c :: dir)) +:+ String sep "")))
            = false).
    { apply String.eqb_neq, absolute_not_slashes. by inversion Hdir. }
    rewrite Hns.
    assert (Hnn : String.eqb
              (("/" +:+ pystr.join sep (c :: dir)) +:+ String sep "") ""
            = false) by done.
    rewrite Hnn. cbn [negb andb].
    apply rstrip_sep; [done|]. by apply absolute_end.
Qed.

End posixfs_paths.

(** ** The calls of the archiver in one directory *)

Section OneDirectory.
Import posixfs posixfs_facts posixfs_paths.
Context (cwd : string)
  (run_process : list string -> option STARTUPINFO -> tree -> Z * tree).
Context (dir : list string) (Hdir : Forall posixpath.plain dir).

#[local] Abbreviation path_of x :=
  ("/" +:+ pystr.join posixpath.sep (dir ++ [x])).

Lemma plain_snoc (x : string) :
  posixpath.plain x -> Forall posixpath.plain (dir ++ [x]).
Proof. intros Hx. apply Forall_app. split; [done|by constructor]. Qed.

Lemma path_exists_child (x : string) (f : tree) (E : list (string * tree)) :
  posixpath.plain x -> resolve dir f = Found (Dir E) ->
  path_exists cwd f (path_of x) =
    match entry x E with Some _ => true | None => false end.
Proof.
  intros Hx Hf. unfold path_exists.
  rewrite (locate_absolute _ _ (plain_snoc _ Hx)), (resolve_child _ _ _ _ Hf).
  by destruct (entry x E).
Qed.

Lemma path_exists_dir (f : tree) (E : list (string * tree)) :
  resolve dir f = Found (Dir E) ->
  path_exists cwd f ("/" +:+ pystr.join posixpath.sep dir) = true.
Proof.
  intros Hf. unfold path_exists. by rewrite (locate_absolute _ _ Hdir), Hf.
Qed.

Lemma rmtree_child (x : string) (f : tree) (E : list (string * tree)) :
  posixpath.plain x -> resolve dir f = Found (Dir E) ->
  (if path_exists cwd f (path_of x) then rmtree cwd (path_of x) f else f) =
    update dir (Some (Dir (removed x E))) f.
Proof.
  intros Hx Hf. rewrite (path_exists_child _ _ _ Hx Hf).
  unfold rmtree, removed.
  rewrite (locate_absolute _ _ (plain_snoc _ Hx)), (resolve_child _ _ _ _ Hf).
  destruct (entry x E) as [[data|entries]|];
    rewrite ?(update_same _ _ _ Hf); try done.
  by rewrite (update_child _ _ _ _ _ Hf).
Qed.

Lemma mkdir_child (x : string) (f : tree) (E : list (string * tree)) :
  posixpath.plain x -> resolve dir f = Found (Dir E) ->
  mkdir cwd (path_of x) f =
    match entry x E with
    | Some _ => (Some (FileExistsError (path_of x)), f)
    | None => (None, update dir (Some (Dir (replace x (Dir []) E))) f)
    end.
Proof.
  intros Hx Hf. unfold mkdir.
  rewrite (locate_absolute _ _ (plain_snoc _ Hx)), (resolve_child _ _ _ _ Hf).
  destruct (entry x E); [done|].
  rewrite removelast_last, Hf. by rewrite (update_child _ _ _ _ _ Hf).
Qed.

Lemma makedirs_child (x : string) (f : tree) (E : list (string * tree)) :
  posixpath.plain x -> resolve dir f = Found (Dir E) ->
  makedirs cwd (path_of x) f = mkdir cwd (path_of x) f.
Proof.
  intros Hx Hf. unfold makedirs.
  assert (Hstep : forall depth,
    makedirs_upto depth cwd (path_of x) f = mkdir cwd (path_of x) f).
  { intros depth.
    assert (Hne : String.eqb x "" = false).
    { apply String.eqb_neq. by destruct Hx. }
    destruct depth; cbn [makedirs_upto];
      rewrite (split_absolute_snoc _ _ (plain_snoc _ Hx)), Hne;
      rewrite (path_exists_dir _ _ Hf);
      by rewrite andb_false_r. }
  apply Hstep.
Qed.

Lemma copytree_child (y x : string) (f : tree) (E : list (string * tree)) :
  posixpath.plain y -> posixpath.plain x ->
  resolve dir f = Found (Dir E) ->
  (if path_exists cwd f (path_of x) then (None, f)
   else copytree cwd (path_of y) (path_of x) f) =
    (fst (copied (path_of y) y x E),
     update dir (Some (Dir (snd (copied (path_of y) y x E)))) f).
Proof.
  intros Hy Hx Hf. rewrite (path_exists_child _ _ _ Hx Hf).
  unfold copied. destruct (entry x E) as [t|] eqn:Ex.
  { cbn. by rewrite (update_same _ _ _ Hf). }
  unfold copytree.
  rewrite (locate_absolute _ _ (plain_snoc _ Hy)), (resolve_child _ _ _ _ Hf).
  destruct (entry y E) as [[data|entries]|];
    cbn [fst snd]; rewrite ?(update_same _ _ _ Hf); try done.
  rewrite (makedirs_child _ _ _ Hx Hf), (mkdir_child _ _ _ Hx Hf), Ex.
  rewrite (locate_absolute _ _ (plain_snoc _ Hx)).
  rewrite (update_child _ _ _ _ (replace x (Dir []) E)
             (resolve_update _ _ _ _ Hf)).
  cbn [set_entry]. by rewrite replace_replace, (update_update _ _ _ _ _ Hf).
Qed.

End OneDirectory.

Section PosixBackups.
Import posixfs posixfs_facts posixfs_paths.
Context {editor : sublime.t} (cwd : string)
  (run_process : list string -> option STARTUPINFO -> tree -> Z * tree).

(** The run of [move_packages_to_backup_dirs] when the two directories are
    side by side, in terms of the entries [E] of the directory that holds
    them. *)
Lemma move_packages_posix (dir : list string) (name name' : string)
    (E : list (string * tree)) (w : World) :
  side_by_side dir name name' ->
  resolve dir (fs w) = Found (Dir E) ->
  let packages_bak := sublime.packages_path +:+ ".bak" in
  let installed_bak := sublime.installed_packages_path +:+ ".bak" in
  let E1 := removed (name +:+ ".bak") E in
  let E2 := removed (name' +:+ ".bak") E1 in
  let removals :=
    match entry (name +:+ ".bak") E with
    | Some _ => [ev_rmtree packages_bak]
    | None => []
    end
    ++ match entry (name' +:+ ".bak") E1 with
       | Some _ => [ev_rmtree installed_bak]
       | None => []
       end in
  let first :=
    copied sublime.installed_packages_path name' (name' +:+ ".bak") E2 in
  let first_call :=
    match entry (name' +:+ ".bak") E2 with
    | Some _ => []
    | None => [ev_copytree sublime.installed_packages_path installed_bak]
    end in
  let second :=
    copied sublime.packages_path name (name +:+ ".bak") (snd first) in
  let second_call :=
    match entry (name +:+ ".bak") (snd first) with
    | Some _ => []
    | None => [ev_copytree sublime.packages_path packages_bak]
    end in
  move_packages_to_backup_dirs (system := system cwd run_process) __init__ w =
    match fst first with
    | Some e =>
        (Raise e,
         {| fs := update dir (Some (Dir (snd first))) (fs w);
            trace := trace w ++ removals ++ first_call;
            temp_seq := temp_seq w |})
    | None =>
        (match fst second with
         | Some e => Raise e
         | None => Return tt
         end,
         {| fs := update dir (Some (Dir (snd second))) (fs w);
            trace := trace w ++ removals ++ first_call ++ second_call;
            temp_seq := temp_seq w |})
    end.
Proof.
  intros (Hp & Hi & Hpp & Hipp & _) Hf.
  intros packages_bak installed_bak E1 E2 removals first first_call
    second second_call.
  assert (Hdir : Forall posixpath.plain dir) by by apply Forall_app in Hp as [? _].
  assert (Hname : posixpath.plain name).
  { apply Forall_app in Hp as [_ H]. by inversion H. }
  assert (Hname' : posixpath.plain name').
  { apply Forall_app in Hi as [_ H]. by inversion H. }
  assert (Hpb : posixpath.plain (name +:+ ".bak")) by by apply plain_append.
  assert (Hib : posixpath.plain (name' +:+ ".bak")) by by apply plain_append.
  pose proof (move_packages_run (system := system cwd run_process) __init__ w)
    as Hrun.
  cbv zeta in Hrun. rewrite Hrun. clear Hrun.
  cbn [packages_bak_path installed_packages_bak_path __init__
       os.path_exists os.rmtree os.copytree system].
  fold packages_bak installed_bak.
  assert (Hpbak : packages_bak =
            "/" +:+ pystr.join posixpath.sep (dir ++ [name +:+ ".bak"])).
  { subst packages_bak. by rewrite Hpp, absolute_append. }
  assert (Hibak : installed_bak =
            "/" +:+ pystr.join posixpath.sep (dir ++ [name' +:+ ".bak"])).
  { subst installed_bak. by rewrite Hipp, absolute_append. }
  (* the removals *)
  assert (H1 : (if path_exists cwd (fs w) packages_bak
                then rmtree cwd packages_bak (fs w) else fs w)
               = update dir (Some (Dir E1)) (fs w)).
  { rewrite Hpbak. by apply rmtree_child. }
  rewrite H1.
  assert (Hf1 : resolve dir (update dir (Some (Dir E1)) (fs w)) = Found (Dir E1))
    by by eapply resolve_update.
  assert (H2 : (if path_exists cwd (update dir (Some (Dir E1)) (fs w)) installed_bak
                then rmtree cwd installed_bak (update dir (Some (Dir E1)) (fs w))
                else update dir (Some (Dir E1)) (fs w))
               = update dir (Some (Dir E2)) (fs w)).
  { rewrite Hibak, (rmtree_child cwd dir Hdir _ _ _ Hib Hf1).
    by rewrite (update_update _ _ _ _ _ Hf). }
  rewrite H2.
  assert (Hf2 : resolve dir (update dir (Some (Dir E2)) (fs w)) = Found (Dir E2))
    by by eapply resolve_update.
  assert (Hr1 : path_exists cwd (fs w) packages_bak =
                  match entry (name +:+ ".bak") E with
                  | Some _ => true | None => false end).
  { rewrite Hpbak. by apply path_exists_child. }
  assert (Hr2 : path_exists cwd (update dir (Some (Dir E1)) (fs w)) installed_bak =
                  match entry (name' +:+ ".bak") E1 with
                  | Some _ => true | None => false end).
  { rewrite Hibak. by apply path_exists_child. }
  rewrite Hr1, Hr2.
  (* the copy of the installed packages *)
  assert (H3 : (if path_exists cwd (update dir (Some (Dir E2)) (fs w)) installed_bak
                then (None, update dir (Some (Dir E2)) (fs w))
                else copytree cwd sublime.installed_packages_path installed_bak
                       (update dir (Some (Dir E2)) (fs w)))
               = (fst first, update dir (Some (Dir (snd first))) (fs w))).
  { rewrite Hibak. rewrite Hipp at 1.
    rewrite (copytree_child cwd dir Hdir _ _ _ _ Hname' Hib Hf2).
    rewrite <- Hipp. fold first. by rewrite (update_update _ _ _ _ _ Hf). }
  rewrite H3. cbn [fst snd].
  assert (Hc1 : path_exists cwd (update dir (Some (Dir E2)) (fs w)) installed_bak =
                  match entry (name' +:+ ".bak") E2 with
                  | Some _ => true | None => false end).
  { rewrite Hibak. by apply path_exists_child. }
  rewrite Hc1.
  assert (Hf3 : resolve dir (update dir (Some (Dir (snd first))) (fs w))
                = Found (Dir (snd first))) by by eapply resolve_update.
  (* the copy of the packages *)
  assert (H4 : (if path_exists cwd (update dir (Some (Dir (snd first))) (fs w))
                     packages_bak
                then (None, update dir (Some (Dir (snd first))) (fs w))
                else copytree cwd sublime.packages_path packages_bak
                       (update dir (Some (Dir (snd first))) (fs w)))
               = (fst second, update dir (Some (Dir (snd second))) (fs w))).
  { rewrite Hpbak. rewrite Hpp at 1.
    rewrite (copytree_child cwd dir Hdir _ _ _ _ Hname Hpb Hf3).
    rewrite <- Hpp. fold second. by rewrite (update_update _ _ _ _ _ Hf). }
  rewrite H4. cbn [fst snd].
  assert (Hc2 : path_exists cwd (update dir (Some (Dir (snd first))) (fs w))
                  packages_bak =
                  match entry (name +:+ ".bak") (snd first) with
                  | Some _ => true | None => false end).
  { rewrite Hpbak. by apply path_exists_child. }
  rewrite Hc2.
  subst removals first_call second_call.
  destruct (fst first); repeat f_equal;
    repeat match goal with |- context [entry ?x ?l] =>
      destruct (entry x l) eqn:?; try done end.
Qed.

End PosixBackups.

(** ** The backups on POSIX *)

Section PosixTheorems.
Import posixfs posixfs_facts posixfs_paths.
Context {editor : sublime.t} (cwd : string)
  (run_process : list string -> option STARTUPINFO -> tree -> Z * tree).

Lemma names_differ (dir : list string) (name name' : string) :
  side_by_side dir name name' ->
  name <> name +:+ ".bak" /\ name' <> name' +:+ ".bak"
  /\ name +:+ ".bak" <> name' +:+ ".bak"
  /\ name' +:+ ".bak" <> name +:+ ".bak"
  /\ name +:+ ".bak" <> name /\ name' +:+ ".bak" <> name'
  /\ name' +:+ ".bak" <> name /\ name +:+ ".bak" <> name'.
Proof.
  intros (_ & _ & _ & _ & Hne & Hni & Hnp).
  assert (H1 : name <> name +:+ ".bak") by by apply append_neq_self.
  assert (H2 : name' <> name' +:+ ".bak") by by apply append_neq_self.
  assert (H3 : name +:+ ".bak" <> name' +:+ ".bak").
  { intros E. by apply Hne, (append_inj_l _ _ ".bak"). }
  repeat split; try done; by intros E.
Qed.

(** Simplifies what is looked up in the entries of the directory. *)
Ltac entries :=
  repeat first
    [ rewrite entry_replace_same
    | rewrite entry_without_same
    | rewrite entry_replace_other by done
    | rewrite entry_without_other by done
    | rewrite without_replace
    | rewrite without_replace_other by done
    | rewrite without_without
    | match goal with |- context [without ?x ?F] =>
        rewrite (without_absent x F)
          by (rewrite ?entry_without_other by done;
              first [ apply entry_without_same | assumption ])
      end
    | match goal with H : entry ?x ?E = _ |- context [entry ?x ?E] =>
        rewrite H end ].

(** A backup of two directories that exist, side by side: nothing is
    raised, and [F'] is what becomes of the entries [F] of the directory
    that holds them. *)
Lemma move_packages_side_by_side (dir : list string) (name name' : string)
    (F packages installed : list (string * tree)) (v : World) :
  side_by_side dir name name' ->
  resolve dir (fs v) = Found (Dir F) ->
  entry name F = Some (Dir packages) ->
  entry name' F = Some (Dir installed) ->
  exists F',
    move_packages_to_backup_dirs (system := system cwd run_process)
      __init__ v
    = (Return tt,
       {| fs := update dir (Some (Dir F')) (fs v);
          trace := trace (snd (move_packages_to_backup_dirs
                                 (system := system cwd run_process)
                                 __init__ v));
          temp_seq := temp_seq v |})
    /\ F' = match entry (name +:+ ".bak") F, entry (name' +:+ ".bak") F with
            | Some (File _), Some (File _) => F
            | Some (File _), _ =>
                replace (name' +:+ ".bak") (Dir installed)
                  (without (name' +:+ ".bak") F)
            | _, Some (File _) =>
                replace (name +:+ ".bak") (Dir packages)
                  (without (name +:+ ".bak") F)
            | _, _ =>
                replace (name +:+ ".bak") (Dir packages)
                  (replace (name' +:+ ".bak") (Dir installed)
                     (without (name' +:+ ".bak")
                        (without (name +:+ ".bak") F)))
            end.
Proof.
  intros Hside Hv HP HI.
  destruct (names_differ _ _ _ Hside) as (N1 & N2 & N3 & N4 & N5 & N6 & N7 & N8).
  pose proof Hside as (_ & _ & _ & _ & N9 & N10 & N11).
  assert (N12 : name' <> name) by by intros E'.
  rewrite (move_packages_posix cwd run_process dir name name' F v Hside Hv).
  unfold removed, copied.
  destruct (entry (name +:+ ".bak") F) as [[dp|ep]|] eqn:Epb;
    destruct (entry (name' +:+ ".bak") F) as [[di|ei]|] eqn:Eib;
    entries; cbn [fst snd]; entries; cbn [fst snd]; entries;
    eexists; (split; [reflexivity|]); entries; reflexivity.
Qed.

(** [remove_backup_dirs] for this layout. *)
Lemma remove_backup_dirs_posix (dir : list string) (name name' : string)
    (F : list (string * tree)) (v : World) :
  side_by_side dir name name' ->
  resolve dir (fs v) = Found (Dir F) ->
  exists calls,
    remove_backup_dirs (system := system cwd run_process) __init__ v =
      (Return tt,
       {| fs := update dir
                  (Some (Dir (removed (name' +:+ ".bak")
                                (removed (name +:+ ".bak") F))))
                  (fs v);
          trace := trace v ++ calls;
          temp_seq := temp_seq v |}).
Proof.
  intros (Hp & Hi & Hpp & Hipp & _) Hf.
  assert (Hdir : Forall posixpath.plain dir) by by apply Forall_app in Hp as [? _].
  assert (Hpb : posixpath.plain (name +:+ ".bak")).
  { apply plain_append; [|done]. apply Forall_app in Hp as [_ H]. by inversion H. }
  assert (Hib : posixpath.plain (name' +:+ ".bak")).
  { apply plain_append; [|done]. apply Forall_app in Hi as [_ H]. by inversion H. }
  pose proof (remove_backup_dirs_run (system := system cwd run_process)
                __init__ v) as Hrun.
  cbv zeta in Hrun. rewrite Hrun. clear Hrun.
  cbn [packages_bak_path installed_packages_bak_path __init__
       os.path_exists os.rmtree system].
  rewrite Hpp, Hipp, !absolute_append.
  rewrite (rmtree_child cwd dir Hdir _ _ _ Hpb Hf).
  rewrite (rmtree_child cwd dir Hdir _ _ _ Hib (resolve_update _ _ _ _ Hf)).
  rewrite (update_update _ _ _ _ _ Hf). by eexists.
Qed.

(** On POSIX, with Packages and Installed Packages side by side: a backup
    returns normally and leaves at each backup path a copy of the directory
    as it is now, unless a plain file is in the way, which stays; the two
    directories are as before; and a second backup changes nothing in the
    file system. *)
Theorem backup_twice (dir : list string) (name name' : string)
    (E packages installed : list (string * tree)) (w : World) :
  side_by_side dir name name' ->
  resolve dir (fs w) = Found (Dir E) ->
  entry name E = Some (Dir packages) ->
  entry name' E = Some (Dir installed) ->
  exists w1 w2,
    move_packages_to_backup_dirs (system := system cwd run_process) __init__ w
      = (Return tt, w1)
    /\ move_packages_to_backup_dirs (system := system cwd run_process)
         __init__ w1 = (Return tt, w2)
    /\ fs w2 = fs w1
    /\ resolve (dir ++ [name +:+ ".bak"]) (fs w1) =
         Found match entry (name +:+ ".bak") E with
               | Some (File data) => File data
               | _ => Dir packages
               end
    /\ resolve (dir ++ [name' +:+ ".bak"]) (fs w1) =
         Found match entry (name' +:+ ".bak") E with
               | Some (File data) => File data
               | _ => Dir installed
               end
    /\ resolve (dir ++ [name]) (fs w1) = Found (Dir packages)
    /\ resolve (dir ++ [name']) (fs w1) = Found (Dir installed).
Proof.
  intros Hside Hf Hpackages Hinstalled.
  destruct (names_differ _ _ _ Hside) as (N1 & N2 & N3 & N4 & N5 & N6 & N7 & N8).
  pose proof Hside as (_ & _ & _ & _ & N9 & N10 & N11).
  assert (N12 : name' <> name) by by intros E'.
  destruct (move_packages_side_by_side dir name name' E packages installed w
              Hside Hf Hpackages Hinstalled) as (E1 & Hrun1 & HE1).
  set (w1 := {| fs := update dir (Some (Dir E1)) (fs w);
                trace := trace (snd (move_packages_to_backup_dirs
                                       (system := system cwd run_process)
                                       __init__ w));
                temp_seq := temp_seq w |}) in *.
  assert (Hf1 : resolve dir (fs w1) = Found (Dir E1))
    by by eapply resolve_update.
  assert (HP1 : entry name E1 = Some (Dir packages)).
  { rewrite HE1.
    destruct (entry (name +:+ ".bak") E) as [[dp|ep]|];
      destruct (entry (name' +:+ ".bak") E) as [[di|ei]|]; by entries. }
  assert (HI1 : entry name' E1 = Some (Dir installed)).
  { rewrite HE1.
    destruct (entry (name +:+ ".bak") E) as [[dp|ep]|];
      destruct (entry (name' +:+ ".bak") E) as [[di|ei]|]; by entries. }
  destruct (move_packages_side_by_side dir name name' E1 packages installed w1
              Hside Hf1 HP1 HI1) as (E2 & Hrun2 & HE2).
  eexists w1, _. split; [exact Hrun1|]. split; [exact Hrun2|].
  assert (HE : E2 = E1).
  { rewrite HE2, HE1.
    destruct (entry (name +:+ ".bak") E) as [[dp|ep]|] eqn:Epb;
      destruct (entry (name' +:+ ".bak") E) as [[di|ei]|] eqn:Eib;
      entries; reflexivity. }
  cbn [fs]. rewrite HE.
  split; [by apply update_same|].
  rewrite !(resolve_child _ _ _ _ Hf1), HP1, HI1, HE1.
  destruct (entry (name +:+ ".bak") E) as [[dp|ep]|] eqn:Epb;
    destruct (entry (name' +:+ ".bak") E) as [[di|ei]|] eqn:Eib;
    entries; done.
Qed.


(** On POSIX, with Packages and Installed Packages side by side and no
    plain file at a backup path: a backup followed by [remove_backup_dirs]
    leaves the file system as it was, without the two backups; if there
    was no backup before, exactly as it was. *)
Theorem backup_then_remove (dir : list string) (name name' : string)
    (E packages installed : list (string * tree)) (w : World) :
  side_by_side dir name name' ->
  resolve dir (fs w) = Found (Dir E) ->
  entry name E = Some (Dir packages) ->
  entry name' E = Some (Dir installed) ->
  (forall data, entry (name +:+ ".bak") E <> Some (File data)) ->
  (forall data, entry (name' +:+ ".bak") E <> Some (File data)) ->
  exists w',
    (move_packages_to_backup_dirs (system := system cwd run_process) __init__;;
     remove_backup_dirs (system := system cwd run_process) __init__) w =
      (Return tt, w')
    /\ fs w' =
         update (dir ++ [name' +:+ ".bak"]) None
           (update (dir ++ [name +:+ ".bak"]) None (fs w))
    /\ (entry (name +:+ ".bak") E = None ->
        entry (name' +:+ ".bak") E = None -> fs w' = fs w).
Proof.
  intros Hside Hf Hpackages Hinstalled Hfp Hfi.
  destruct (names_differ _ _ _ Hside) as (N1 & N2 & N3 & N4 & N5 & N6 & N7 & N8).
  pose proof Hside as (_ & _ & _ & _ & N9 & N10 & N11).
  assert (N12 : name' <> name) by by intros E'.
  destruct (move_packages_side_by_side dir name name' E packages installed w
              Hside Hf Hpackages Hinstalled) as (E1 & Hrun1 & HE1).
  rewrite (bind_Return _ _ _ _ _ Hrun1).
  match goal with |- context [remove_backup_dirs _ ?v] => set (w1 := v) end.
  assert (Hf1 : resolve dir (fs w1) = Found (Dir E1))
    by by eapply resolve_update.
  destruct (remove_backup_dirs_posix dir name name' E1 w1 Hside Hf1)
    as (calls & ->).
  eexists. split; [reflexivity|]. subst w1. cbn [fs].
  rewrite (update_update _ _ _ _ _ Hf).
  assert (HE : removed (name' +:+ ".bak") (removed (name +:+ ".bak") E1) =
               without (name' +:+ ".bak") (without (name +:+ ".bak") E)).
  { rewrite HE1. unfold removed.
    destruct (entry (name +:+ ".bak") E) as [[dp|ep]|] eqn:Epb;
      [by destruct (Hfp dp)| |];
      destruct (entry (name' +:+ ".bak") E) as [[di|ei]|] eqn:Eib;
      try (by destruct (Hfi di));
      entries; reflexivity. }
  rewrite HE. split.
  - rewrite (update_child _ _ _ _ _ Hf).
    rewrite (update_child _ _ _ _ _ (resolve_update _ _ _ _ Hf)).
    by rewrite (update_update _ _ _ _ _ Hf).
  - intros Epb Eib. entries. by apply update_same.
Qed.

(** On POSIX, when Installed Packages is not a directory and no plain file
    is at its backup path: the call raises the error of [shutil.copytree]
    once the old backups are removed; no backup of the installed packages
    exists then, the old backup of the packages is gone, and no copy of the
    packages has been tried. *)
Theorem backup_of_missing_installed_packages (dir : list string)
    (name name' : string) (E : list (string * tree)) (w : World) :
  side_by_side dir name name' ->
  resolve dir (fs w) = Found (Dir E) ->
  (forall entries, entry name' E <> Some (Dir entries)) ->
  (forall data, entry (name' +:+ ".bak") E <> Some (File data)) ->
  exists w',
    move_packages_to_backup_dirs (system := system cwd run_process) __init__ w
      = (Raise match entry name' E with
               | None => FileNotFoundError sublime.installed_packages_path
               | Some _ => NotADirectoryError sublime.installed_packages_path
               end, w')
    /\ resolve (dir ++ [name +:+ ".bak"]) (fs w') =
         match entry (name +:+ ".bak") E with
         | Some (File data) => Found (File data)
         | _ => Missing
         end
    /\ resolve (dir ++ [name' +:+ ".bak"]) (fs w') = Missing
    /\ trace w' =
         trace w
         ++ match entry (name +:+ ".bak") E with
            | Some _ => [ev_rmtree (sublime.packages_path +:+ ".bak")]
            | None => []
            end
         ++ match entry (name' +:+ ".bak") E with
            | Some _ => [ev_rmtree (sublime.installed_packages_path +:+ ".bak")]
            | None => []
            end
         ++ [ev_copytree sublime.installed_packages_path
               (sublime.installed_packages_path +:+ ".bak")].
Proof.
  intros Hside Hf Hsrc Hfi.
  destruct (names_differ _ _ _ Hside) as (N1 & N2 & N3 & N4 & N5 & N6 & N7 & N8).
  pose proof Hside as (_ & _ & _ & _ & N9 & N10 & N11).
  assert (N12 : name' <> name) by by intros E'.
  rewrite (move_packages_posix cwd run_process dir name name' E w Hside Hf).
  unfold removed, copied.
  destruct (entry name' E) as [[ds|es]|] eqn:Esrc; [|by destruct (Hsrc es)|];
    destruct (entry (name +:+ ".bak") E) as [[dp|ep]|] eqn:Epb;
    destruct (entry (name' +:+ ".bak") E) as [[di|ei]|] eqn:Eib;
    try (by destruct (Hfi di));
    entries; cbn [fst snd]; entries;
    eexists; (split; [reflexivity|]); cbn [fs trace];
    rewrite !(resolve_child _ _ _ _ (resolve_update _ _ _ _ Hf));
    entries; rewrite <- ?app_assoc; done.
Qed.

(** On POSIX, when Packages is not a directory, no plain file is at its
    backup path and Installed Packages is a directory: the call raises the
    error of [shutil.copytree] after the backup of the installed packages
    is made; that backup exists then, and none of the packages. *)
Theorem backup_of_missing_packages (dir : list string)
    (name name' : string) (E installed : list (string * tree)) (w : World) :
  side_by_side dir name name' ->
  resolve dir (fs w) = Found (Dir E) ->
  entry name' E = Some (Dir installed) ->
  (forall entries, entry name E <> Some (Dir entries)) ->
  (forall data, entry (name +:+ ".bak") E <> Some (File data)) ->
  exists w',
    move_packages_to_backup_dirs (system := system cwd run_process) __init__ w
      = (Raise match entry name E with
               | None => FileNotFoundError sublime.packages_path
               | Some _ => NotADirectoryError sublime.packages_path
               end, w')
    /\ resolve (dir ++ [name +:+ ".bak"]) (fs w') = Missing
    /\ resolve (dir ++ [name' +:+ ".bak"]) (fs w') =
         Found match entry (name' +:+ ".bak") E with
               | Some (File data) => File data
               | _ => Dir installed
               end.
Proof.
  intros Hside Hf Hinstalled Hsrc Hfp.
  destruct (names_differ _ _ _ Hside) as (N1 & N2 & N3 & N4 & N5 & N6 & N7 & N8).
  pose proof Hside as (_ & _ & _ & _ & N9 & N10 & N11).
  assert (N12 : name' <> name) by by intros E'.
  rewrite (move_packages_posix cwd run_process dir name name' E w Hside Hf).
  unfold removed, copied.
  destruct (entry name E) as [[ds|es]|] eqn:Esrc; [|by destruct (Hsrc es)|];
    destruct (entry (name +:+ ".bak") E) as [[dp|ep]|] eqn:Epb;
    try (by destruct (Hfp dp));
    destruct (entry (name' +:+ ".bak") E) as [[di|ei]|] eqn:Eib;
    entries; cbn [fst snd]; entries; cbn [fst snd]; entries;
    eexists; (split; [reflexivity|]); cbn [fs];
    rewrite !(resolve_child _ _ _ _ (resolve_update _ _ _ _ Hf));
    entries; done.
Qed.

End PosixTheorems.

(** * The claims on the concrete host *)

Section Witnesses.
#[local] Existing Instances Host.editor Host.black Host.tools Host.linux.
#[local] Instance host_paths : os_path.t := Host.posix "/home/u".

Lemma host_paths_differ :
  sublime.packages_path <> sublime.installed_packages_path.
Proof. discriminate. Qed.

Lemma pack_exclusion_list_witness :
  utils.get_7za_bin = Some "/opt/sublimall/7za"
  /\ trace (snd (pack_packages __init__ (Some "s3cret") false true
                   (kwargs.set_excluded_dirs ["Packages/Secret"] kwargs.empty)
                   Host.world)) =
       [ev_Popen
          ["/opt/sublimall/7za"; "a"; "-tzip"; "-y"; "-ps3cret";
           "-x!Packages/Secret*";
           "-x!Packages/User/Package Control.cache*";
           "-x!Packages/User/Sublimall.log*";
           "-x!Installed Packages/Sublimall.sublime-package*";
           "-x!Packages/Emmet*";
           "-x!Installed Packages/Emmet.sublime-package*";
           "-x!Packages/SublimeLinter*";
           "-x!Installed Packages/SublimeLinter.sublime-package*";
           "/tmp/sublimall-.zip";
           "/home/u/.config/sublime-text-3/Packages";
           "/home/u/.config/sublime-text-3/Installed Packages"]
          None].
Proof.
  split; [reflexivity|].
  exact (pack_exclusion_list (Some "s3cret") false true
           (kwargs.set_excluded_dirs ["Packages/Secret"] kwargs.empty)
           "/opt/sublimall/7za" Host.world eq_refl).
Defined.


Lemma pack_command_line_witness :
  utils.get_7za_bin = Some "/opt/sublimall/7za"
  /\ kwargs.output_filename
       (kwargs.set_output_filename "backup.zip"
          (kwargs.set_excluded_dirs ["Packages/Secret"] kwargs.empty))
     = Some "backup.zip"
  /\ sublime.packages_path <> sublime.installed_packages_path
  /\ trace (snd (_run_executable __init__ "a" (Some "s3cret")
                   (kwargs.set_output_filename "backup.zip"
                      (kwargs.set_excluded_dirs ["Packages/Secret"] kwargs.empty))
                   Host.world)) =
       [ev_Popen
          ["/opt/sublimall/7za"; "a"; "-tzip"; "-y"; "-ps3cret";
           "-x!Packages/Secret*"; "backup.zip";
           "/home/u/.config/sublime-text-3/Packages";
           "/home/u/.config/sublime-text-3/Installed Packages"]
          None].
Proof.
  split; [reflexivity|]. split; [reflexivity|]. split; [discriminate|].
  exact (pack_command_line (Some "s3cret")
           (kwargs.set_output_filename "backup.zip"
              (kwargs.set_excluded_dirs ["Packages/Secret"] kwargs.empty))
           "/opt/sublimall/7za" "backup.zip" Host.world
           eq_refl eq_refl host_paths_differ).
Defined.


Lemma unpack_default_command_line_witness :
  utils.get_7za_bin = Some "/opt/sublimall/7za"
  /\ _get_output_dir __init__ Host.world =
       (Return "/home/u/.config/sublime-text-3", Host.world)
  /\ trace (snd (unpack_packages __init__ "backup.zip" None (Some "s3cret")
                   Host.world)) =
       [ev_Popen
          ["/opt/sublimall/7za"; "x"; "-tzip"; "-y";
           "-o/home/u/.config/sublime-text-3"; "-ps3cret"; "backup.zip"]
          None]
  /\ fst (unpack_packages __init__ "backup.zip" None (Some "s3cret")
            Host.world) = Return tt.
Proof.
  split; [reflexivity|].
  exact (unpack_default_command_line "backup.zip" (Some "s3cret")
           "/opt/sublimall/7za" Host.world eq_refl).
Defined.

Lemma excludes_from_package_control_witness :
  sublime.packages_path <> sublime.installed_packages_path
  /\ _excludes_from_package_control __init__ =
       ["Packages/Emmet"; "Installed Packages/Emmet.sublime-package";
        "Packages/SublimeLinter";
        "Installed Packages/SublimeLinter.sublime-package"]
  /\ length (_excludes_from_package_control __init__) = 4%nat.
Proof.
  split; [discriminate|].
  destruct (excludes_from_package_control_spec (paths := host_paths)
              host_paths_differ)
    as (Hlist & Hlength & _).
  split; [exact Hlist | exact Hlength].
Defined.

Lemma password_flag_witness :
  utils.get_7za_bin = Some "/opt/sublimall/7za"
  /\ kwargs.output_filename (kwargs.set_output_filename "backup.zip" kwargs.empty)
     = Some "backup.zip"
  /\ kwargs.input_file
       {| kwargs.excluded_dirs := None; kwargs.output_filename := None;
          kwargs.input_file := Some "backup.zip";
          kwargs.output_dir := Some "/tmp/out" |} = Some "backup.zip"
  /\ kwargs.output_dir
       {| kwargs.excluded_dirs := None; kwargs.output_filename := None;
          kwargs.input_file := Some "backup.zip";
          kwargs.output_dir := Some "/tmp/out" |} = Some "/tmp/out"
  /\ trace (snd (_run_executable __init__ "a" (Some "")
                   (kwargs.set_output_filename "backup.zip" kwargs.empty)
                   Host.world)) =
       [ev_Popen
          ["/opt/sublimall/7za"; "a"; "-tzip"; "-y"; "-p"; "backup.zip";
           "/home/u/.config/sublime-text-3/Packages";
           "/home/u/.config/sublime-text-3/Installed Packages"]
          None]
  /\ trace (snd (_run_executable __init__ "x" (Some "")
                   {| kwargs.excluded_dirs := None;
                      kwargs.output_filename := None;
                      kwargs.input_file := Some "backup.zip";
                      kwargs.output_dir := Some "/tmp/out" |}
                   Host.world)) =
       [ev_Popen
          ["/opt/sublimall/7za"; "x"; "-tzip"; "-y"; "-o/tmp/out"; "-p";
           "backup.zip"]
          None].
Proof.
  do 4 (split; [reflexivity|]).
  destruct (password_flag (tools := Host.tools) __init__
              (kwargs.set_output_filename "backup.zip" kwargs.empty)
              {| kwargs.excluded_dirs := None; kwargs.output_filename := None;
                 kwargs.input_file := Some "backup.zip";
                 kwargs.output_dir := Some "/tmp/out" |}
              "/opt/sublimall/7za" "backup.zip" "backup.zip" "/tmp/out"
              Host.world eq_refl eq_refl eq_refl eq_refl)
    as (_ & _ & Hpack & _ & _ & Hunpack).
  split; [exact Hpack | exact Hunpack].
Defined.

Lemma move_packages_to_backup_dirs_witness :
  move_packages_to_backup_dirs __init__ Host.world =
    (Return tt,
     {| fs :=
          Host.installation
            [("Packages", Host.Packages);
             ("Installed Packages", Host.Installed_Packages);
             ("Installed Packages.bak", Host.Installed_Packages);
             ("Packages.bak", Host.Packages)];
        trace :=
          [ev_rmtree "/home/u/.config/sublime-text-3/Packages.bak";
           ev_copytree "/home/u/.config/sublime-text-3/Installed Packages"
             "/home/u/.config/sublime-text-3/Installed Packages.bak";
           ev_copytree "/home/u/.config/sublime-text-3/Packages"
             "/home/u/.config/sublime-text-3/Packages.bak"];
        temp_seq := 0 |}).
Proof.
  exact (move_packages_to_backup_dirs_spec Host.world).
Defined.

(** With the installed packages inside the old backup of the packages, the
    removal of that backup takes them away, and the first copy fails. *)
Lemma backup_below_old_backup :
  move_packages_to_backup_dirs (editor := Host.below_backup)
    (__init__ (editor := Host.below_backup))
    {| fs := Dir [("opt", Dir [("st",
               Dir [("Packages", Host.Packages);
                    ("Packages.bak",
                     Dir [("Installed", Host.Installed_Packages)])])])];
       trace := []; temp_seq := 0 |} =
    (Raise (FileNotFoundError "/opt/st/Packages.bak/Installed"),
     {| fs := Dir [("opt", Dir [("st", Dir [("Packages", Host.Packages)])])];
        trace :=
          [ev_rmtree "/opt/st/Packages.bak";
           ev_copytree "/opt/st/Packages.bak/Installed"
             "/opt/st/Packages.bak/Installed.bak"];
        temp_seq := 0 |}).
Proof. reflexivity. Qed.

(** With the installed packages inside the packages, the backup of the
    packages holds the backup of the installed packages as well. *)
Lemma backup_below_packages :
  move_packages_to_backup_dirs (editor := Host.below_packages)
    (__init__ (editor := Host.below_packages))
    {| fs := Dir [("opt", Dir [("st",
               Dir [("Packages",
                     Dir [("User", File "{}");
                          ("Installed", Host.Installed_Packages)])])])];
       trace := []; temp_seq := 0 |} =
    (Return tt,
     {| fs := Dir [("opt", Dir [("st",
               Dir [("Packages",
                     Dir [("User", File "{}");
                          ("Installed", Host.Installed_Packages);
                          ("Installed.bak", Host.Installed_Packages)]);
                    ("Packages.bak",
                     Dir [("User", File "{}");
                          ("Installed", Host.Installed_Packages);
                          ("Installed.bak", Host.Installed_Packages)])])])];
        trace :=
          [ev_copytree "/opt/st/Packages/Installed"
             "/opt/st/Packages/Installed.bak";
           ev_copytree "/opt/st/Packages" "/opt/st/Packages.bak"];
        temp_seq := 0 |}).
Proof. reflexivity. Qed.

Lemma posix_output_dir_is_parent_witness :
  Forall posixpath.plain
    (["home"; "u"; ".config"; "sublime-text-3"] ++ ["Packages"])
  /\ sublime.packages_path =
       "/" +:+ pystr.join posixpath.sep
                 (["home"; "u"; ".config"; "sublime-text-3"] ++ ["Packages"])
  /\ _get_output_dir (paths := Host.posix "/srv/www") __init__ Host.world =
       (Return "/home/u/.config/sublime-text-3", Host.world).
Proof.
  assert (Hplain : Forall posixpath.plain
            (["home"; "u"; ".config"; "sublime-text-3"] ++ ["Packages"])).
  { repeat first [ discriminate | constructor ]. }
  split; [exact Hplain|]. split; [reflexivity|].
  exact (posix_output_dir_is_parent "/srv/www"
           ["home"; "u"; ".config"; "sublime-text-3"] "Packages" Host.world
           Hplain eq_refl).
Defined.

Lemma missing_binary_raises_witness :
  utils.get_7za_bin (t := Host.no_tools) = None
  /\ (forall backup exclude_from_package_control kw,
        pack_packages (tools := Host.no_tools) __init__ None backup
          exclude_from_package_control kw Host.world =
          (Raise (Exception "Couldn't find 7za binary"),
           {| fs := Host.disk; trace := [];
              temp_seq := match kwargs.output_filename kw with
                          | Some _ => 0
                          | None => 1
                          end |}))
  /\ (forall input_file output_dir,
        unpack_packages (tools := Host.no_tools) __init__ input_file output_dir
          None Host.world =
          (Raise (Exception "Couldn't find 7za binary"), Host.world)).
Proof.
  split; [reflexivity|].
  exact (missing_binary_raises (tools := Host.no_tools) None Host.world eq_refl).
Defined.

(** C8, as stated, fails when the archiver binary is missing: the
    preconditions hold, and yet no command line is built or run; the
    exception of [_get_7za_executable] ends the call. *)
Lemma run_executable_missing_binary :
  "a" ∈ ["a"; "x"]
  /\ is_Some (kwargs.output_filename
                (kwargs.set_output_filename "backup.zip" kwargs.empty))
  /\ _run_executable (tools := Host.no_tools) __init__ "a" None
       (kwargs.set_output_filename "backup.zip" kwargs.empty) Host.world =
       (Raise (Exception "Couldn't find 7za binary"), Host.world)
  /\ ~ (exists args si,
          In (ev_Popen args si)
             (trace (snd (_run_executable (tools := Host.no_tools) __init__ "a"
                            None
                            (kwargs.set_output_filename "backup.zip" kwargs.empty)
                            Host.world)))).
Proof.
  split; [by left|]. split; [by eexists|]. split; [reflexivity|].
  intros (args & si & []).
Qed.

(** ** The further properties on the concrete host *)

Lemma backup_kept_when_removal_fails_witness :
  os.path_exists (t := Host.locked) (fs Host.backed_up)
    (sublime.packages_path +:+ ".bak") = true
  /\ os.path_exists (t := Host.locked) (fs Host.backed_up)
       (sublime.installed_packages_path +:+ ".bak") = true
  /\ move_packages_to_backup_dirs (system := Host.locked) __init__
       Host.backed_up =
       (Return tt,
        {| fs := fs Host.backed_up;
           trace :=
             [ev_rmtree "/home/u/.config/sublime-text-3/Packages.bak";
              ev_rmtree "/home/u/.config/sublime-text-3/Installed Packages.bak"];
           temp_seq := 0 |}).
Proof.
  split; [reflexivity|]. split; [reflexivity|].
  exact (backup_kept_when_removal_fails (system := Host.locked) Host.backed_up
           eq_refl eq_refl).
Defined.

Lemma host_side_by_side :
  side_by_side ["home"; "u"; ".config"; "sublime-text-3"]
    "Packages" "Installed Packages".
Proof.
  repeat split; try discriminate;
    repeat first [ discriminate | constructor ].
Defined.

Lemma backup_twice_witness :
  side_by_side ["home"; "u"; ".config"; "sublime-text-3"]
    "Packages" "Installed Packages"
  /\ exists w1 w2,
       move_packages_to_backup_dirs __init__ Host.world = (Return tt, w1)
       /\ move_packages_to_backup_dirs __init__ w1 = (Return tt, w2)
       /\ fs w2 = fs w1
       /\ posixfs.resolve
            ["home"; "u"; ".config"; "sublime-text-3"; "Packages.bak"] (fs w1)
          = posixfs.Found Host.Packages
       /\ posixfs.resolve
            ["home"; "u"; ".config"; "sublime-text-3"; "Installed Packages.bak"]
            (fs w1)
          = posixfs.Found Host.Installed_Packages.
Proof.
  split; [exact host_side_by_side|].
  destruct (backup_twice "/home/u" (fun _ _ f => (2, f))
              ["home"; "u"; ".config"; "sublime-text-3"]
              "Packages" "Installed Packages" _ _ _ Host.world
              host_side_by_side eq_refl eq_refl eq_refl)
    as (w1 & w2 & H1 & H2 & Hsame & Hp & Hi & _).
  exists w1, w2. repeat split; assumption.
Defined.

Lemma backup_then_remove_witness :
  side_by_side ["home"; "u"; ".config"; "sublime-text-3"]
    "Packages" "Installed Packages"
  /\ exists w',
       (move_packages_to_backup_dirs __init__;; remove_backup_dirs __init__)
         Host.world = (Return tt, w')
       /\ fs w' =
            Host.installation
              [("Packages", Host.Packages);
               ("Installed Packages", Host.Installed_Packages)].
Proof.
  split; [exact host_side_by_side|].
  destruct (backup_then_remove "/home/u" (fun _ _ f => (2, f))
              ["home"; "u"; ".config"; "sublime-text-3"]
              "Packages" "Installed Packages" _ _ _ Host.world
              host_side_by_side eq_refl eq_refl eq_refl
              ltac:(discriminate) ltac:(discriminate))
    as (w' & Hrun & Hfs & _).
  exists w'. split; [exact Hrun|]. rewrite Hfs. reflexivity.
Defined.

Lemma backup_of_missing_installed_packages_witness :
  side_by_side ["home"; "u"; ".config"; "sublime-text-3"]
    "Packages" "Installed Packages"
  /\ exists w',
       move_packages_to_backup_dirs __init__ Host.without_installed =
         (Raise (FileNotFoundError
                   "/home/u/.config/sublime-text-3/Installed Packages"), w')
       /\ posixfs.resolve
            ["home"; "u"; ".config"; "sublime-text-3"; "Packages.bak"] (fs w')
          = posixfs.Missing
       /\ posixfs.resolve
            ["home"; "u"; ".config"; "sublime-text-3"; "Installed Packages.bak"]
            (fs w')
          = posixfs.Missing
       /\ trace w' =
            [ev_rmtree "/home/u/.config/sublime-text-3/Packages.bak";
             ev_copytree "/home/u/.config/sublime-text-3/Installed Packages"
               "/home/u/.config/sublime-text-3/Installed Packages.bak"].
Proof.
  split; [exact host_side_by_side|].
  exact (backup_of_missing_installed_packages "/home/u" (fun _ _ f => (2, f))
           ["home"; "u"; ".config"; "sublime-text-3"]
           "Packages" "Installed Packages" _ Host.without_installed
           host_side_by_side eq_refl ltac:(discriminate) ltac:(discriminate)).
Defined.

Lemma backup_of_missing_packages_witness :
  side_by_side ["home"; "u"; ".config"; "sublime-text-3"]
    "Packages" "Installed Packages"
  /\ exists w',
       move_packages_to_backup_dirs __init__ Host.without_packages =
         (Raise (FileNotFoundError "/home/u/.config/sublime-text-3/Packages"),
          w')
       /\ posixfs.resolve
            ["home"; "u"; ".config"; "sublime-text-3"; "Packages.bak"] (fs w')
          = posixfs.Missing
       /\ posixfs.resolve
            ["home"; "u"; ".config"; "sublime-text-3"; "Installed Packages.bak"]
            (fs w')
          = posixfs.Found Host.Installed_Packages.
Proof.
  split; [exact host_side_by_side|].
  exact (backup_of_missing_packages "/home/u" (fun _ _ f => (2, f))
           ["home"; "u"; ".config"; "sublime-text-3"]
           "Packages" "Installed Packages" _ _ Host.without_packages
           host_side_by_side eq_refl eq_refl
           ltac:(discriminate) ltac:(discriminate)).
Defined.


Lemma pack_packages_on_posix_witness :
  utils.get_7za_bin = Some "/opt/sublimall/7za"
  /\ os.name = "posix"
  /\ sublime.packages_path = "/home/u/.config/sublime-text-3" +:+ "/" +:+ "Packages"
  /\ sublime.installed_packages_path =
       "/home/u/.config/sublime-text-3" +:+ "/" +:+ "Installed Packages"
  /\ trace (snd (pack_packages (paths := Host.posix "/srv/www") __init__ None
                   false true
                   (kwargs.set_excluded_dirs ["/var/cache"] kwargs.empty)
                   Host.world)) =
       [ev_Popen
          ["/opt/sublimall/7za"; "a"; "-tzip"; "-y";
           "-x!/var/cache*";
           "-x!Packages/User/Package Control.cache*";
           "-x!Packages/User/Sublimall.log*";
           "-x!Installed Packages/Sublimall.sublime-package*";
           "-x!Packages/Emmet*";
           "-x!Installed Packages/Emmet.sublime-package*";
           "-x!Packages/SublimeLinter*";
           "-x!Installed Packages/SublimeLinter.sublime-package*";
           "/tmp/sublimall-.zip";
           "/home/u/.config/sublime-text-3/Packages";
           "/home/u/.config/sublime-text-3/Installed Packages"]
          None].
Proof.
  do 4 (split; [reflexivity|]).
  exact (pack_packages_on_posix (tools := Host.tools) (system := Host.linux)
           "/srv/www"
           "/home/u/.config/sublime-text-3" "Packages"
           "/home/u/.config/sublime-text-3" "Installed Packages"
           "/opt/sublimall/7za" None false true
           (kwargs.set_excluded_dirs ["/var/cache"] kwargs.empty) Host.world
           eq_refl eq_refl eq_refl eq_refl
           ltac:(discriminate) eq_refl ltac:(discriminate) eq_refl
           host_paths_differ).
Defined.

End Witnesses.
